(** * pydmart: the request / session / error-mapping layer of [DmartService]

    A shallow embedding of [src/pydmart/dmart_service.py] (and the [Error]
    and [DmartException] shapes shared with [src/pydmart/models.py]).

    - Python values that travel through the client (decoded JSON bodies,
      the stored token) are the inductive [pyval]; JSON numbers are
      integers.
    - A Python [str] is a Rocq [string] holding its UTF-8 bytes; the two
      field patterns are matched on that encoding.
    - Attributes that the code reads without ever declaring them are
      modelled with [attr]: [Unset] is "no such attribute" (reading it
      raises [AttributeError]), [Assigned v] is an attribute bound to [v]
      (where [v] may be Python's [None]).
    - Coroutines are functions in a state-and-exception monad [M] over a
      [world]: the class attribute [session], the instance attributes, the
      log of HTTP requests issued and the number of pools constructed.
      The backend is an explicit oracle [network].
    - What the validation library reads from a string given for an [int]
      field is a parameter, the class [Pydantic]; every statement about
      the dispatcher holds for each reading. *)

From Stdlib Require Import ZArith Ascii String List Lia.
From stdpp Require Import base option list strings gmap.

Set Warnings "-register-all".
Local Open Scope Z_scope.

(** ** Python values *)

Inductive pyval :=
| VNone
| VBool (b : bool)
| VInt (n : Z)
| VStr (s : string)
| VList (l : list pyval)
| VDict (d : list (string * pyval)).

(** A [dict] with [str] keys, in insertion order. *)
Abbreviation pydict := (list (string * pyval)).

(** [bool(v)]: what [if v] / [not v] inspect. *)
Definition truthy (v : pyval) : bool :=
  match v with
  | VNone => false
  | VBool b => b
  | VInt n => negb (n =? 0)
  | VStr s => negb (String.eqb s "")
  | VList l => match l with [] => false | _ => true end
  | VDict d => match d with [] => false | _ => true end
  end.

(** [d.get(k)] on a dict: the first binding of [k]. *)
Fixpoint dict_lookup (k : string) (d : pydict) : option pyval :=
  match d with
  | [] => None
  | (k', v) :: d' => if String.eqb k k' then Some v else dict_lookup k d'
  end.

(** [d[k] = v]: rebinding keeps the key's position, a new key goes last. *)
Fixpoint dict_set (k : string) (v : pyval) (d : pydict) : pydict :=
  match d with
  | [] => [(k, v)]
  | (k', v') :: d' =>
      if String.eqb k k' then (k, v) :: d' else (k', v') :: dict_set k v d'
  end.

(** [{**d, **extra}]. *)
Definition dict_update (d extra : pydict) : pydict :=
  fold_left (fun acc kv => dict_set (fst kv) (snd kv) acc) extra d.

(** [v == s] for a string literal [s]. *)
Definition py_eq_str (v : pyval) (s : string) : bool :=
  match v with
  | VStr s' => String.eqb s' s
  | _ => false
  end.

(** ** Enumerations *)

Inductive Status := success | failed.

Inductive RequestType :=
| rt_create | rt_update | rt_patch | rt_update_acl | rt_assign | r_replace
| rt_delete | rt_move.

Definition RequestType_value (t : RequestType) : string :=
  match t with
  | rt_create => "create" | rt_update => "update" | rt_patch => "patch"
  | rt_update_acl => "update_acl" | rt_assign => "assign"
  | r_replace => "replace" | rt_delete => "delete" | rt_move => "move"
  end.

Inductive ResourceType :=
| user | group | folder | schema | content | acl | comment | media
| data_asset | locator | relationship | alteration | history | space
| branch | permission | role | ticket | json | lock | post | reaction
| reply | share | plugin_wrapper | notification | csv | jsonl | sqlite
| duckdb | parquet.

Definition ResourceType_value (t : ResourceType) : string :=
  match t with
  | user => "user" | group => "group" | folder => "folder"
  | schema => "schema" | content => "content" | acl => "acl"
  | comment => "comment" | media => "media" | data_asset => "data_asset"
  | locator => "locator" | relationship => "relationship"
  | alteration => "alteration" | history => "history" | space => "space"
  | branch => "branch" | permission => "permission" | role => "role"
  | ticket => "ticket" | json => "json" | lock => "lock" | post => "post"
  | reaction => "reaction" | reply => "reply" | share => "share"
  | plugin_wrapper => "plugin_wrapper" | notification => "notification"
  | csv => "csv" | jsonl => "jsonl" | sqlite => "sqlite"
  | duckdb => "duckdb" | parquet => "parquet"
  end.

Inductive RequestMethod := m_get | m_post | m_delete | m_put | m_patch.

Definition RequestMethod_value (m : RequestMethod) : string :=
  match m with
  | m_get => "get" | m_post => "post" | m_delete => "delete"
  | m_put => "put" | m_patch => "patch"
  end.

(** ** Exceptions and results *)

Module Error.
Record t := {
  type : string;
  code : Z;
  message : string;
  info : option (list pydict)
}.
End Error.

Inductive exn :=
| AttributeError (name : string)
| KeyError (key : pyval)
| IndexError
| TypeError
| ValidationError (model : string)
| ConnectionError (msg : string)
| ClientError (detail : string)
| JSONDecodeError
| DmartException (status_code : Z) (error : Error.t).

Inductive result (A : Type) :=
| Ok (a : A)
| Raise (e : exn).
Arguments Ok {A} a.
Arguments Raise {A} e.

(** ** Field patterns

    [SUBPATH] and [SHORTNAME] are anchored character-class patterns with a
    bounded repetition.  A character is an ASCII letter, digit or '_'
    ('/' too for [SUBPATH]), or a code point in U+0621..U+064A or
    U+0660..U+0669; in UTF-8 those are the two-byte sequences
    D8 A1..D8 BF, D9 80..D9 8A and D9 A0..D9 A9. *)

Definition ascii_word (slash : bool) (c : ascii) : bool :=
  let n := nat_of_ascii c in
  ((97 <=? n) && (n <=? 122) || (65 <=? n) && (n <=? 90)
   || (48 <=? n) && (n <=? 57) || (n =? 95)
   || slash && (n =? 47))%nat.

Definition arabic_pair (c1 c2 : ascii) : bool :=
  let a := nat_of_ascii c1 in
  let b := nat_of_ascii c2 in
  ((a =? 216) && (161 <=? b) && (b <=? 191)
   || (a =? 217) && ((128 <=? b) && (b <=? 138) || (160 <=? b) && (b <=? 169)))%nat.

(** The number of characters of [s] when every one of them is in the
    class, [None] otherwise. *)
Fixpoint class_run (slash : bool) (s : string) : option nat :=
  match s with
  | EmptyString => Some 0%nat
  | String c1 rest =>
      if ascii_word slash c1 then S <$> class_run slash rest
      else match rest with
           | String c2 rest' =>
               if arabic_pair c1 c2 then S <$> class_run slash rest' else None
           | EmptyString => None
           end
  end.

Definition class_match (slash : bool) (lo hi : nat) (s : string) : bool :=
  match class_run slash s with
  | Some n => ((lo <=? n) && (n <=? hi))%nat
  | None => false
  end.

Definition SUBPATH (s : string) : bool := class_match true 1 128 s.
Definition SHORTNAME (s : string) : bool := class_match false 1 64 s.

(** ** [str.strip("/")] *)

Fixpoint lstrip (c : ascii) (s : string) : string :=
  match s with
  | EmptyString => EmptyString
  | String a s' => if Ascii.eqb a c then lstrip c s' else s
  end.

Fixpoint rstrip (c : ascii) (s : string) : string :=
  match s with
  | EmptyString => EmptyString
  | String a s' =>
      match rstrip c s' with
      | EmptyString => if Ascii.eqb a c then EmptyString else String a EmptyString
      | t => String a t
      end
  end.

Definition strip (c : ascii) (s : string) : string := rstrip c (lstrip c s).

(** ** [Record] *)

(** A [uuid.UUID] object, by its [int], a natural below 2^128. *)
Definition UUID := N.

(** [u.variant == RFC_4122]: bit 63 of the integer is set and bit 62 is
    clear. *)
Definition rfc_4122 (u : UUID) : bool := N.testbit u 63 && negb (N.testbit u 62).

(** [u.version]: the four bits from bit 76 up, for an RFC 4122 UUID, and
    [None] for any other variant. *)
Definition UUID_version (u : UUID) : option N :=
  if rfc_4122 u then Some (N.land (N.shiftr u 76) 15) else None.

(** The field type [UUID4]: a UUID whose [version] is 4. *)
Definition UUID4 (u : UUID) : bool :=
  (u <? 2 ^ 128)%N
  && match UUID_version u with
     | Some v => (v =? 4)%N
     | None => false
     end.

(** The field [uuid: UUID4 | None]. *)
Definition uuid_field (uuid : option UUID) : bool :=
  match uuid with
  | Some u => UUID4 u
  | None => true
  end.

Record Record_ := {
  resource_type : ResourceType;
  uuid : option UUID;
  shortname : string;
  subpath : string;
  attributes : pydict;
  attachments : option (list (ResourceType * list pyval));
  retrieve_lock_status : bool
}.

(** [Record.__init__], with the keyword arguments taken at their
    declared types: [BaseModel.__init__] checks the version of the uuid
    and the two pattern-constrained fields, then the subpath is stripped
    unless it is the root. *)
Definition Record_init (resource_type : ResourceType) (uuid : option UUID)
    (shortname subpath : string) (attributes : pydict)
    (attachments : option (list (ResourceType * list pyval)))
    (retrieve_lock_status : bool) : result Record_ :=
  if negb (uuid_field uuid) then Raise (ValidationError "Record")
  else if negb (SHORTNAME shortname) then Raise (ValidationError "Record")
  else if negb (SUBPATH subpath) then Raise (ValidationError "Record")
  else
    let subpath' :=
      if negb (String.eqb subpath "/") then strip "/" subpath else subpath in
    Ok {| resource_type := resource_type; uuid := uuid;
          shortname := shortname; subpath := subpath';
          attributes := attributes; attachments := attachments;
          retrieve_lock_status := retrieve_lock_status |}.

(** ** pydantic validation of the two response models

    Both models are validated in pydantic's default mode, which takes a
    mapping (or an instance of the model itself) and nothing else.  The
    members of a mapping are read as lax mode reads them: a [str] member
    takes a string only, an [int] member takes an integer, a boolean (as 0
    or 1) or a string that reads as an integer. *)

(** What the validation library makes of a string given for an [int]
    member: the integer it reads, or [None] when it reads none.  The
    rules for it belong to the library and are left open here. *)
Class Pydantic := { str_as_int : string -> option Z }.

(** An [int] member. *)
Definition validate_int `{Pydantic} (v : pyval) : option Z :=
  match v with
  | VInt n => Some n
  | VBool b => Some (if b then 1 else 0)
  | VStr s => str_as_int s
  | _ => None
  end.

Definition optional_member (k : string) (d : pydict) : option pyval :=
  match dict_lookup k d with
  | Some VNone => None
  | o => o
  end.

Fixpoint all_dicts (l : list pyval) : option (list pydict) :=
  match l with
  | [] => Some []
  | VDict d :: l' => (fun ds => d :: ds) <$> all_dicts l'
  | _ => None
  end.

(** [Error.model_validate(v)]. *)
Definition Error_model_validate `{Pydantic} (v : pyval) : result Error.t :=
  match v with
  | VDict d =>
      match dict_lookup "type" d,
            validate_int <$> dict_lookup "code" d,
            dict_lookup "message" d with
      | Some (VStr ty), Some (Some c), Some (VStr msg) =>
          match optional_member "info" d with
          | None =>
              Ok {| Error.type := ty; Error.code := c; Error.message := msg;
                    Error.info := None |}
          | Some (VList l) =>
              match all_dicts l with
              | Some ds =>
                  Ok {| Error.type := ty; Error.code := c; Error.message := msg;
                        Error.info := Some ds |}
              | None => Raise (ValidationError "Error")
              end
          | Some _ => Raise (ValidationError "Error")
          end
      | _, _, _ => Raise (ValidationError "Error")
      end
  | _ => Raise (ValidationError "Error")
  end.

(** ** The HTTP layer *)

(** The value of a header: a literal, or the f-string
    [f"Bearer {self.auth_token}"] with the interpolated object kept as it
    is. *)
Inductive header_value :=
| Literal (s : string)
| Bearer (token : pyval).

Inductive form_value :=
| JsonFile (record : pyval)     (* BytesIO(bytes(json.dumps(record), "utf-8")) *)
| BinaryFile (payload : string) (* the caller's BinaryIO *)
| Text (s : string).

Record form_field := {
  field_name : string;
  field_value : form_value;
  field_filename : option string;
  field_content_type : option string
}.

(** [aiohttp.FormData], as the fields added so far. *)
Abbreviation FormData := (list form_field).

Definition add_field (data : FormData) (name : string) (value : form_value)
    (filename content_type : option string) : FormData :=
  data ++ [{| field_name := name; field_value := value;
              field_filename := filename; field_content_type := content_type |}].

Record request := {
  req_method : string;
  req_url : string;
  req_headers : gmap string header_value;
  req_json : option pydict;
  req_data : option FormData
}.

(** What the context manager binds to [response]: its status and what
    [await response.json()] gives ([None]: the body does not decode). *)
Record response := {
  resp_status : Z;
  resp_json : option pyval
}.

Inductive outcome :=
| NoResponse (detail : string)   (* the transport raises *)
| Responded (r : response).

(** The backend: the outcome of a request, given the requests before it. *)
Definition network := list request -> request -> outcome.

(** What is handed to [model_validate]. *)
Inductive pyobj :=
| Decoded (v : pyval)
| ResponseObject (r : response).

Module DmartResponse.
Record t := {
  status : Status;
  error : option Error.t;
  records : pyval;
  attributes : option pydict
}.

Definition validate_status (v : option pyval) : option Status :=
  match v with
  | Some (VStr s) =>
      if String.eqb s "success" then Some success
      else if String.eqb s "failed" then Some failed else None
  | _ => None
  end.

(** [DmartResponse.model_validate(o)].  [records] is a union with [Any],
    so every member value is accepted.  It is kept here as decoded; the
    library would go on to turn a list of valid records into [Record]
    objects, which this field does not represent. *)
Definition model_validate `{Pydantic} (o : pyobj) : result t :=
  match o with
  | Decoded (VDict d) =>
      match validate_status (dict_lookup "status" d) with
      | None => Raise (ValidationError "DmartResponse")
      | Some st =>
          let recs := default VNone (dict_lookup "records" d) in
          let mk err attrs :=
            {| status := st; error := err; records := recs; attributes := attrs |} in
          match optional_member "error" d, optional_member "attributes" d with
          | None, None => Ok (mk None None)
          | None, Some (VDict a) => Ok (mk None (Some a))
          | Some e, None =>
              match Error_model_validate e with
              | Ok err => Ok (mk (Some err) None)
              | Raise _ => Raise (ValidationError "DmartResponse")
              end
          | Some e, Some (VDict a) =>
              match Error_model_validate e with
              | Ok err => Ok (mk (Some err) (Some a))
              | Raise _ => Raise (ValidationError "DmartResponse")
              end
          | _, Some _ => Raise (ValidationError "DmartResponse")
          end
      end
  | Decoded _ => Raise (ValidationError "DmartResponse")
  | ResponseObject _ => Raise (ValidationError "DmartResponse")
  end.
End DmartResponse.

(** ** The client and its world *)

Inductive attr (A : Type) :=
| Unset
| Assigned (v : A).
Arguments Unset {A}.
Arguments Assigned {A} v.

(** An [aiohttp.ClientSession], numbered by order of construction. *)
Record ClientSession := { pool_id : nat }.

(** The attributes of the one [DmartService] instance. *)
Record instance := {
  dmart_url : attr string;
  username : attr string;
  password : attr string;
  auth_token : attr pyval
}.

Record world := {
  session : attr (option ClientSession);  (* the class attribute: unset, None or a pool *)
  self : instance;
  sent : list request;                    (* HTTP requests issued, oldest first *)
  pools : nat                             (* ClientSession objects constructed *)
}.

(** The class and a new instance as the module defines them: the class body
    declares no attribute and nothing has been assigned yet. *)
Definition new_instance : instance :=
  {| dmart_url := Unset; username := Unset; password := Unset; auth_token := Unset |}.

Definition initial_world : world :=
  {| session := Unset; self := new_instance; sent := []; pools := 0%nat |}.

(** A coroutine: reads the backend, threads the world, returns or raises. *)
Definition M (A : Type) : Type := network -> world -> result A * world.

Definition ret {A} (a : A) : M A := fun _ w => (Ok a, w).
Definition raise {A} (e : exn) : M A := fun _ w => (Raise e, w).
Definition bind {A B} (m : M A) (k : A -> M B) : M B :=
  fun net w =>
    match m net w with
    | (Ok a, w') => k a net w'
    | (Raise e, w') => (Raise e, w')
    end.
Definition lift {A} (r : result A) : M A := fun _ w => (r, w).

Notation "'do' x <- m ; k" := (bind m (fun x => k))
  (at level 10, x name, m at level 100, k at level 200).
Notation "m ;; k" := (bind m (fun _ => k))
  (at level 100, k at level 200, right associativity).

(** [self.<name>] for an instance attribute. *)
Definition self_attr {A} (name : string) (field : instance -> attr A) : M A :=
  fun _ w =>
    match field (self w) with
    | Assigned v => (Ok v, w)
    | Unset => (Raise (AttributeError name), w)
    end.

(** [cls.session] / [self.session]: the instance never binds [session], so
    both read the class attribute. *)
Definition session_attr : M (option ClientSession) :=
  fun _ w =>
    match session w with
    | Assigned v => (Ok v, w)
    | Unset => (Raise (AttributeError "session"), w)
    end.

(** [self.session.<method>]: a bound method of the pool. *)
Definition session_method (method : string) : M ClientSession :=
  do s <- session_attr;
  match s with
  | Some pool => ret pool
  | None => raise (AttributeError method)
  end.

Definition set_auth_token (v : pyval) : M unit :=
  fun _ w =>
    let s := self w in
    (Ok tt,
     {| session := session w;
        self := {| dmart_url := dmart_url s; username := username s;
                   password := password s; auth_token := Assigned v |};
        sent := sent w; pools := pools w |}).

(** Entering [async with pool.request(...) as response]: the request goes
    out and the backend answers or the transport raises. *)
Definition send (pool : ClientSession) (req : request) : M response :=
  fun net w =>
    let w' := {| session := session w; self := self w;
                 sent := sent w ++ [req]; pools := pools w |} in
    match net (sent w) req with
    | Responded r => (Ok r, w')
    | NoResponse detail => (Raise (ClientError detail), w')
    end.

(** [await response.json()]. *)
Definition response_json (r : response) : M pyval :=
  match resp_json r with
  | Some v => ret v
  | None => raise JSONDecodeError
  end.

(** [v.get(k, dflt)]: only a dict has [get]. *)
Definition py_get (v : pyval) (k : string) (dflt : pyval) : M pyval :=
  match v with
  | VDict d => ret (default dflt (dict_lookup k d))
  | _ => raise (AttributeError "get")
  end.

(** [v[k]] for a string key. *)
Definition getitem_key (v : pyval) (k : string) : M pyval :=
  match v with
  | VDict d =>
      match dict_lookup k d with
      | Some x => ret x
      | None => raise (KeyError (VStr k))
      end
  | _ => raise TypeError
  end.

Definition is_continuation (c : ascii) : bool :=
  let n := nat_of_ascii c in ((128 <=? n) && (n <=? 191))%nat.

(** The first character of a string, as a one-character string. *)
Fixpoint leading_char (started : bool) (s : string) : string :=
  match s with
  | EmptyString => EmptyString
  | String c rest =>
      if started && negb (is_continuation c) then EmptyString
      else String c (leading_char true rest)
  end.

(** [v[0]]. *)
Definition getitem_first (v : pyval) : M pyval :=
  match v with
  | VList l =>
      match l !! 0%nat with
      | Some x => ret x
      | None => raise IndexError
      end
  | VStr s =>
      match s with
      | EmptyString => raise IndexError
      | _ => ret (VStr (leading_char false s))
      end
  | VDict _ => raise (KeyError (VInt 0))
  | _ => raise TypeError
  end.

(** ** [DmartService] *)

Module DmartService.

Definition create_session_pool : M unit :=
  do s <- session_attr;
  match s with
  | Some _ => ret tt
  | None =>
      fun _ w =>
        (Ok tt,
         {| session := Assigned (Some {| pool_id := pools w |});
            self := self w; sent := sent w; pools := S (pools w) |})
  end.

(** The body of the coroutine [__init__]. *)
Definition __init__ (url username' password' : string) : M unit :=
  (fun _ w =>
     (Ok tt,
      {| session := session w;
         self := {| dmart_url := Assigned url; username := Assigned username';
                    password := Assigned password';
                    auth_token := auth_token (self w) |};
         sent := sent w; pools := pools w |}));;
  create_session_pool.

Definition login_failure : string :=
  "Failed to connect to the Dmart instance, invalid url or credentials".

Definition connect : M unit :=
  do u <- self_attr "username" username;
  do p <- self_attr "password" password;
  let json := [("shortname", VStr u); ("password", VStr p)] in
  do pool <- session_method "post";
  do url <- self_attr "dmart_url" dmart_url;
  do response <- send pool
       {| req_method := "POST";
          req_url := url +:+ "/user/login";
          req_headers := {[ "Content-Type" := Literal "application/json" ]};
          req_json := Some json;
          req_data := None |};
  do resp_json <- response_json response;
  do status <- py_get resp_json "status" (VStr "failed");
  do rejected <-
    (if py_eq_str status "failed" then ret true
     else do records <- py_get resp_json "records" VNone;
          ret (negb (truthy records)));
  if (rejected : bool) then raise (ConnectionError login_failure)
  else
    do records <- getitem_key resp_json "records";
    do first <- getitem_first records;
    do attrs <- getitem_key first "attributes";
    do token <- getitem_key attrs "access_token";
    set_auth_token token.

Definition json_headers : M (gmap string header_value) :=
  do token <- self_attr "auth_token" auth_token;
  ret (<[ "Content-Type" := Literal "application/json" ]>
         {[ "Authorization" := Bearer token ]}).

Definition headers : M (gmap string header_value) :=
  do token <- self_attr "auth_token" auth_token;
  ret {[ "Authorization" := Bearer token ]}.

Definition unauthenticated : exn :=
  DmartException 401
    {| Error.code := 10; Error.type := "login";
       Error.message := "Not authenticated Dmart user"; Error.info := None |}.

(** [if json]: a dict that is present and not empty. *)
Definition json_truthy (json : option pydict) : bool :=
  match json with
  | Some d => truthy (VDict d)
  | None => false
  end.

(** [__api]. [response is None] cannot hold of the object the context
    manager binds, so the test is on the status alone. *)
Definition __api `{Pydantic} (endpoint : string) (method : RequestMethod)
    (json : option pydict) (data : option FormData) : M DmartResponse.t :=
  do token <- self_attr "auth_token" auth_token;
  if negb (truthy token) then raise unauthenticated
  else
    do pool <- session_method "request";
    do url <- self_attr "dmart_url" dmart_url;
    do hdrs <- (if json_truthy json then json_headers else headers);
    do response <- send pool
         {| req_method := RequestMethod_value method;
            req_url := url +:+ endpoint;
            req_headers := hdrs;
            req_json := json;
            req_data := data |};
    do resp_json <- response_json response;
    if negb (resp_status response =? 200) then
      do e <- getitem_key resp_json "error";
      do error <- lift (Error_model_validate e);
      raise (DmartException (resp_status response) error)
    else lift (DmartResponse.model_validate (ResponseObject response)).

Definition disconnect `{Pydantic} : M unit :=
  __api "/user/logout" m_post None None;;
  set_auth_token VNone.

Definition get_profile `{Pydantic} : M DmartResponse.t :=
  __api "/user/profile" m_get None None.

Definition request_record (resource_type : ResourceType)
    (subpath shortname : string) (attributes : pydict) : pyval :=
  VDict [("resource_type", VStr (ResourceType_value resource_type));
         ("subpath", VStr subpath);
         ("shortname", VStr shortname);
         ("attributes", VDict attributes)].

(** [__request]. *)
Definition __request `{Pydantic} (space_name subpath shortname : string)
    (request_type : RequestType) (attributes : pydict)
    (resource_type : ResourceType) : M DmartResponse.t :=
  __api "/managed/request" m_post
    (Some [("space_name", VStr space_name);
           ("request_type", VStr (RequestType_value request_type));
           ("records",
            VList [request_record resource_type subpath shortname attributes])])
    None.

Definition create `{Pydantic} (space_name subpath : string) (attributes : pydict)
    (shortname : string) (resource_type : ResourceType) : M DmartResponse.t :=
  __request space_name subpath shortname rt_create attributes resource_type.

Definition upload_resource_with_payload `{Pydantic} (space_name : string) (record : pydict)
    (payload payload_file_name payload_mime_type : string) : M DmartResponse.t :=
  let record_file := JsonFile (VDict record) in
  let data : FormData := [] in
  let data := add_field data "request_record" record_file
                (Some "record.json") (Some "application/json") in
  let data := add_field data "payload_file" (BinaryFile payload)
                (Some payload_file_name) (Some payload_mime_type) in
  let data := add_field data "space_name" (Text space_name) None None in
  __api "/managed/resource_with_payload" m_post None (Some data).

Definition query_data_asset `{Pydantic} (space_name subpath shortname data_asset_type
    query_string : string) (schema_shortname : option string)
    (resource_type : ResourceType) : M DmartResponse.t :=
  __api "/managed/data-asset" m_post
    (Some [("space_name", VStr space_name);
           ("subpath", VStr subpath);
           ("resource_type", VStr (ResourceType_value resource_type));
           ("shortname", VStr shortname);
           ("schema_shortname", from_option VStr VNone schema_shortname);
           ("data_asset_type", VStr data_asset_type);
           ("query_string", VStr query_string)])
    None.

(** [str(b)] inside an f-string. *)
Definition bool_str (b : bool) : string := if b then "True" else "False".

Definition read `{Pydantic} (space_name subpath shortname : string)
    (retrieve_attachments : bool) (resource_type : ResourceType)
    : M DmartResponse.t :=
  __api ("/managed/entry/" +:+ ResourceType_value resource_type +:+ "/"
         +:+ space_name +:+ "/" +:+ subpath +:+ "/" +:+ shortname
         +:+ "?retrieve_json_payload=true&retrieve_attachments="
         +:+ bool_str retrieve_attachments)
    m_get None None.

Definition read_json_payload `{Pydantic} (space_name subpath shortname : string)
    : M DmartResponse.t :=
  __api ("/managed/payload/content/" +:+ space_name +:+ "/" +:+ subpath
         +:+ "/" +:+ shortname +:+ ".json")
    m_get None None.

(** The names [query] binds itself.  A keyword argument of one of these
    names is bound to the parameter, or refused at the call when the
    parameter is given twice; it never reaches [**kwargs]. *)
Definition query_parameters : list string :=
  ["self"; "space_name"; "subpath"; "search"; "filter_schema_names"].

Definition is_query_parameter (k : string) : bool :=
  existsb (String.eqb k) query_parameters.

Definition free_of_parameters (d : pydict) : bool :=
  forallb (fun kv => negb (is_query_parameter (fst kv))) d.

(** What [**kwargs] collects in [query]: keyword arguments under names
    other than the parameters'. *)
Record query_kwargs := {
  kw_items : pydict;
  kw_free : free_of_parameters kw_items = true
}.

Definition query `{Pydantic} (space_name subpath search : string)
    (filter_schema_names : list string) (kwargs : query_kwargs)
    : M DmartResponse.t :=
  __api "/managed/query" m_post
    (Some (dict_update
             [("type", VStr "search");
              ("space_name", VStr space_name);
              ("subpath", VStr subpath);
              ("retrieve_json_payload", VBool true);
              ("filter_schema_names", VList (VStr <$> filter_schema_names));
              ("search", VStr search)]
             (kw_items kwargs)))
    None.

Definition update `{Pydantic} (space_name subpath shortname : string)
    (attributes : pydict) (resource_type : ResourceType) : M DmartResponse.t :=
  __request space_name subpath shortname rt_update attributes resource_type.

Definition progress_ticket `{Pydantic} (space_name subpath shortname action : string)
    (cancellation_reasons : option string) : M DmartResponse.t :=
  let request_body :=
    match cancellation_reasons with
    | Some reasons =>
        if truthy (VStr reasons) then Some [("resolution", VStr reasons)]
        else None
    | None => None
    end in
  __api ("/managed/progress-ticket/" +:+ space_name +:+ "/" +:+ subpath
         +:+ "/" +:+ shortname +:+ "/" +:+ action)
    m_put request_body None.

Definition delete `{Pydantic} (space_name subpath shortname : string)
    (resource_type : ResourceType) : M DmartResponse.t :=
  let json :=
    [("space_name", VStr space_name);
     ("request_type", VStr (RequestType_value rt_delete));
     ("records", VList [request_record resource_type subpath shortname []])] in
  __api "/managed/request" m_post (Some json) None.

End DmartService.
Import DmartService.

(** The operations that neither log in nor log out, with their arguments. *)
Inductive operation :=
| op_get_profile
| op_create (space_name subpath : string) (attributes : pydict)
    (shortname : string) (resource_type : ResourceType)
| op_read (space_name subpath shortname : string)
    (retrieve_attachments : bool) (resource_type : ResourceType)
| op_update (space_name subpath shortname : string) (attributes : pydict)
    (resource_type : ResourceType)
| op_delete (space_name subpath shortname : string)
    (resource_type : ResourceType)
| op_query (space_name subpath search : string)
    (filter_schema_names : list string) (kwargs : query_kwargs)
| op_query_data_asset (space_name subpath shortname data_asset_type
    query_string : string) (schema_shortname : option string)
    (resource_type : ResourceType)
| op_read_json_payload (space_name subpath shortname : string)
| op_upload_resource_with_payload (space_name : string) (record : pydict)
    (payload payload_file_name payload_mime_type : string)
| op_progress_ticket (space_name subpath shortname action : string)
    (cancellation_reasons : option string).

Definition perform `{Pydantic} (o : operation) : M DmartResponse.t :=
  match o with
  | op_get_profile => get_profile
  | op_create sp sub attrs sn rt => create sp sub attrs sn rt
  | op_read sp sub sn ra rt => read sp sub sn ra rt
  | op_update sp sub sn attrs rt => update sp sub sn attrs rt
  | op_delete sp sub sn rt => delete sp sub sn rt
  | op_query sp sub search names kwargs => query sp sub search names kwargs
  | op_query_data_asset sp sub sn ty q sch rt =>
      query_data_asset sp sub sn ty q sch rt
  | op_read_json_payload sp sub sn => read_json_payload sp sub sn
  | op_upload_resource_with_payload sp record payload name mime =>
      upload_resource_with_payload sp record payload name mime
  | op_progress_ticket sp sub sn action reasons =>
      progress_ticket sp sub sn action reasons
  end.

(** Every authenticated call: the operations and [disconnect]. *)
Inductive call :=
| call_operation (o : operation)
| call_disconnect.

Definition outcome_of {A} (r : result A * world) : result unit * world :=
  (match fst r with Ok _ => Ok tt | Raise e => Raise e end, snd r).

Definition run_call `{Pydantic} (c : call) : M unit :=
  fun net w =>
    match c with
    | call_operation o => outcome_of (perform o net w)
    | call_disconnect => disconnect net w
    end.

(** * Vocabulary of the statements *)

(** A run of [n] characters [c]. *)
Fixpoint run_of (c : ascii) (n : nat) : string :=
  match n with
  | O => EmptyString
  | S n' => String c (run_of c n')
  end.

(** [s.startswith(c)] and [s.endswith(c)]. *)
Definition head_is (c : ascii) (s : string) : bool :=
  match s with
  | String a _ => Ascii.eqb a c
  | EmptyString => false
  end.

Fixpoint last_is (c : ascii) (s : string) : bool :=
  match s with
  | EmptyString => false
  | String a EmptyString => Ascii.eqb a c
  | String _ s' => last_is c s'
  end.

(** What [Record.__init__] leaves in [subpath]. *)
Definition normalize_subpath (s : string) : string :=
  if negb (String.eqb s "/") then strip "/" s else s.

(** The world after one more request has gone out. *)
Definition logged (w : world) (req : request) : world :=
  {| session := session w; self := self w;
     sent := sent w ++ [req]; pools := pools w |}.

(** The request [__api] builds once the token [token] has passed the guard. *)
Definition dispatched (url : string) (token : pyval) (endpoint : string)
    (method : RequestMethod) (json : option pydict) (data : option FormData)
    : request :=
  {| req_method := RequestMethod_value method;
     req_url := url +:+ endpoint;
     req_headers :=
       if json_truthy json
       then <[ "Content-Type" := Literal "application/json" ]>
              {[ "Authorization" := Bearer token ]}
       else {[ "Authorization" := Bearer token ]};
     req_json := json;
     req_data := data |}.

(** A client that can dispatch: a truthy token, a pool and a base URL. *)
Record ready (w : world) (token : pyval) (pool : ClientSession) (url : string)
  : Prop := {
  ready_token : auth_token (self w) = Assigned token;
  ready_truthy : truthy token = true;
  ready_pool : session w = Assigned (Some pool);
  ready_url : dmart_url (self w) = Assigned url
}.

(** A client after [__init__] on a class that had a pool, holding [token]. *)
Definition client (token : attr pyval) : world :=
  {| session := Assigned (Some {| pool_id := 0 |});
     self := {| dmart_url := Assigned "https://dmart.example";
                username := Assigned "alice";
                password := Assigned "secret";
                auth_token := token |};
     sent := [];
     pools := 1 |}.

(** A backend that answers every request with [r]. *)
Definition always (r : response) : network := fun _ _ => Responded r.

Definition body_success_empty : pyval :=
  VDict [("status", VStr "success"); ("records", VList [])].

Definition body_validation_failed : pyval :=
  VDict [("status", VStr "failed");
         ("error", VDict [("type", VStr "validation"); ("code", VInt 12);
                          ("message", VStr "bad shortname")])].

(** [n] calls of [create_session_pool] in a row, each caller going on
    whether or not the call before raised. *)
Fixpoint acquire_times (n : nat) (net : network) (w : world) : world :=
  match n with
  | O => w
  | S n' => acquire_times n' net (snd (create_session_pool net w))
  end.

Definition login_request (url u p : string) : request :=
  {| req_method := "POST";
     req_url := url +:+ "/user/login";
     req_headers := {[ "Content-Type" := Literal "application/json" ]};
     req_json := Some [("shortname", VStr u); ("password", VStr p)];
     req_data := None |}.

(** A client that can log in, and a backend that answers the login request
    with a body that decodes to the JSON object [d]. *)
Record login_answered (net : network) (w : world) (u p url : string)
    (d : pydict) : Prop := {
  login_username : username (self w) = Assigned u;
  login_password : password (self w) = Assigned p;
  login_url : dmart_url (self w) = Assigned url;
  login_pool : exists pool, session w = Assigned (Some pool);
  login_response :
    exists r, net (sent w) (login_request url u p) = Responded r
              /\ resp_json r = Some (VDict d)
}.

(** The test [connect] makes on the decoded body. *)
Definition rejected (d : pydict) : bool :=
  py_eq_str (default (VStr "failed") (dict_lookup "status" d)) "failed"
  || negb (truthy (default VNone (dict_lookup "records" d))).

(** The world after the login request went out and [token] was stored. *)
Definition logged_in (w : world) (req : request) (token : pyval) : world :=
  {| session := session w;
     self := {| dmart_url := dmart_url (self w); username := username (self w);
                password := password (self w); auth_token := Assigned token |};
     sent := sent w ++ [req]; pools := pools w |}.

Definition body_login_failed : pydict :=
  [("status", VStr "failed");
   ("error", VDict [("type", VStr "auth"); ("code", VInt 10);
                    ("message", VStr "Invalid username or password")])].

Definition body_login_success : pydict :=
  [("status", VStr "success");
   ("records",
    VList [VDict [("resource_type", VStr "user"); ("shortname", VStr "alice");
                  ("subpath", VStr "users");
                  ("attributes", VDict [("access_token", VStr "tok")])]])].

(** A login answer that carries a token but no "status" member. *)
Definition body_login_no_status : pydict :=
  [("records",
    VList [VDict [("resource_type", VStr "user"); ("shortname", VStr "alice");
                  ("subpath", VStr "users");
                  ("attributes", VDict [("access_token", VStr "tok")])]])].

Definition authorization_only (token : pyval) : gmap string header_value :=
  {[ "Authorization" := Bearer token ]}.

Definition json_and_authorization (token : pyval) : gmap string header_value :=
  <[ "Content-Type" := Literal "application/json" ]>
    {[ "Authorization" := Bearer token ]}.

(** Two outcomes that differ at most in the HTTP status. *)
Definition same_body (o1 o2 : outcome) : Prop :=
  match o1, o2 with
  | Responded r1, Responded r2 => resp_json r1 = resp_json r2
  | NoResponse d1, NoResponse d2 => d1 = d2
  | _, _ => False
  end.


(** A client that can log in, and a backend that answers the login request
    with the response [r]. *)
Record login_sent (net : network) (w : world) (u p url : string)
    (r : response) : Prop := {
  sent_username : username (self w) = Assigned u;
  sent_password : password (self w) = Assigned p;
  sent_url : dmart_url (self w) = Assigned url;
  sent_pool : exists pool, session w = Assigned (Some pool);
  sent_response : net (sent w) (login_request url u p) = Responded r
}.

(** A library that reads no string as an integer.  Any reading serves to
    run the examples that follow: none of them carries a string where an
    integer is expected. *)
Definition reads_no_numeral : Pydantic := {| str_as_int := fun _ => None |}.

(** No keyword argument. *)
Definition no_kwargs : query_kwargs := {| kw_items := []; kw_free := eq_refl |}.

(** The keyword arguments [type="subpath", limit=50]. *)
Definition kwargs_type_limit : query_kwargs :=
  {| kw_items := [("type", VStr "subpath"); ("limit", VInt 50)];
     kw_free := eq_refl |}.

(** The integer of the version 4 UUID 00000000-0000-4000-8000-000000000000. *)
Definition uuid4_example : UUID := (4 * 2 ^ 76 + 2 ^ 63)%N.

(** * Properties *)

Section Properties.
Context `{library : Pydantic}.

(** ** Subpath normalisation *)

Section Strip.
Variable c : ascii.

Lemma lstrip_prefix s : exists n, s = run_of c n +:+ lstrip c s.
Proof.
  induction s as [|a s IH]; [by exists 0%nat|].
  simpl. destruct (Ascii.eqb_spec a c) as [->|Hne].
  - destruct IH as [n Hn]. exists (S n). exact (f_equal (String c) Hn).
  - by exists 0%nat.
Qed.

Lemma lstrip_head s : head_is c (lstrip c s) = false.
Proof.
  induction s as [|a s IH]; [done|].
  simpl. destruct (Ascii.eqb a c) eqn:E; [done|]. simpl. by rewrite E.
Qed.

Lemma rstrip_suffix s : exists m, s = rstrip c s +:+ run_of c m.
Proof.
  induction s as [|a s [m Hm]]; [by exists 0%nat|].
  simpl. destruct (rstrip c s) as [|b t] eqn:E.
  - simpl in Hm. destruct (Ascii.eqb_spec a c) as [->|Hne].
    + exists (S m). exact (f_equal (String c) Hm).
    + exists m. exact (f_equal (String a) Hm).
  - exists m. exact (f_equal (String a) Hm).
Qed.

Lemma rstrip_last s : last_is c (rstrip c s) = false.
Proof.
  induction s as [|a s IH]; [done|].
  simpl. destruct (rstrip c s) as [|b t] eqn:E.
  - destruct (Ascii.eqb a c) eqn:Ea; [done|]. simpl. by rewrite Ea.
  - exact IH.
Qed.

Lemma rstrip_head s : head_is c s = false -> head_is c (rstrip c s) = false.
Proof.
  destruct s as [|a s]; [done|].
  simpl. intros Ha. destruct (rstrip c s); rewrite ?Ha; simpl; by rewrite ?Ha.
Qed.

Lemma rstrip_fixed s : last_is c s = false -> rstrip c s = s.
Proof.
  induction s as [|a s IH]; [done|].
  simpl. destruct s as [|b t].
  - simpl. by intros ->.
  - intros H. rewrite (IH H). done.
Qed.

Lemma lstrip_fixed s : head_is c s = false -> lstrip c s = s.
Proof. destruct s as [|a s]; [done|]. simpl. by intros ->. Qed.

(** [strip] removes a run of [c] at each end and leaves none there. *)
Lemma strip_spec s :
  exists n m, s = run_of c n +:+ strip c s +:+ run_of c m
              /\ head_is c (strip c s) = false
              /\ last_is c (strip c s) = false.
Proof.
  destruct (lstrip_prefix s) as [n Hn].
  destruct (rstrip_suffix (lstrip c s)) as [m Hm].
  exists n, m. unfold strip. split; [|split].
  - by rewrite <- Hm.
  - apply rstrip_head, lstrip_head.
  - apply rstrip_last.
Qed.

Lemma strip_idempotent s : strip c (strip c s) = strip c s.
Proof.
  destruct (strip_spec s) as (_ & _ & _ & Hh & Hl).
  unfold strip at 1. by rewrite (lstrip_fixed _ Hh), (rstrip_fixed _ Hl).
Qed.
End Strip.

Lemma Record_init_subpath rt uid sn sp attrs att rls r :
  Record_init rt uid sn sp attrs att rls = Ok r ->
  subpath r = normalize_subpath sp.
Proof.
  unfold Record_init.
  destruct (negb (uuid_field uid)); [done|].
  destruct (negb (SHORTNAME sn)); [done|].
  destruct (negb (SUBPATH sp)); [done|].
  by intros [= <-].
Qed.

Lemma Record_init_accepts rt uid sn sp attrs att rls :
  uuid_field uid = true -> SHORTNAME sn = true -> SUBPATH sp = true ->
  exists r, Record_init rt uid sn sp attrs att rls = Ok r.
Proof.
  intros Huid Hsn Hsp. unfold Record_init. rewrite Huid, Hsn, Hsp. simpl. eauto.
Qed.

(** C7. Constructing a [Record] from a uuid that is absent or of version
    4 and from a shortname and a subpath that match their patterns
    succeeds, and the stored subpath is the given one with the '/'
    characters at both ends removed (it neither starts nor ends with '/'),
    except that the root "/" is stored as it is; the stored value is a
    fixed point of the normalisation.  "/a/b/" is stored as "a/b" and "/"
    as "/". *)
Theorem Record_subpath_normalized :
  (forall rt uid sn sp attrs att rls,
      uuid_field uid = true -> SHORTNAME sn = true -> SUBPATH sp = true ->
      exists r,
        Record_init rt uid sn sp attrs att rls = Ok r
        /\ (sp = "/" -> subpath r = "/")
        /\ (sp <> "/" ->
            exists n m,
              sp = run_of "/" n +:+ subpath r +:+ run_of "/" m
              /\ head_is "/" (subpath r) = false
              /\ last_is "/" (subpath r) = false)
        /\ normalize_subpath (subpath r) = subpath r)
  /\ (forall rt uid sn attrs att rls,
        uuid_field uid = true -> SHORTNAME sn = true ->
        subpath <$> (match Record_init rt uid sn "/a/b/" attrs att rls with
                     | Ok r => Some r | Raise _ => None end) = Some "a/b"
        /\ subpath <$> (match Record_init rt uid sn "/" attrs att rls with
                        | Ok r => Some r | Raise _ => None end) = Some "/").
Proof.
  split.
  - intros rt uid sn sp attrs att rls Huid Hsn Hsp.
    destruct (Record_init_accepts rt uid sn sp attrs att rls Huid Hsn Hsp)
      as [r Hr].
    exists r. split; [exact Hr|].
    rewrite (Record_init_subpath _ _ _ _ _ _ _ _ Hr).
    unfold normalize_subpath.
    destruct (String.eqb_spec sp "/") as [->|Hne]; simpl.
    + split; [done|]. split; [intros Hroot; by destruct Hroot|]. reflexivity.
    + split; [done|]. split.
      * intros _. apply strip_spec.
      * destruct (String.eqb_spec (strip "/" sp) "/") as [E|_]; simpl.
        -- destruct (strip_spec "/" sp) as (_ & _ & _ & Hh & _).
           rewrite E in Hh. done.
        -- apply strip_idempotent.
  - intros rt uid sn attrs att rls Huid Hsn.
    unfold Record_init. rewrite Huid, Hsn. simpl. done.
Qed.

Lemma Record_subpath_normalized_witness :
  uuid_field (Some uuid4_example) = true
  /\ SHORTNAME "auto" = true /\ SUBPATH "/a/b/" = true
  /\ exists r, Record_init content (Some uuid4_example) "auto" "/a/b/" [] None false
               = Ok r
               /\ subpath r = "a/b".
Proof.
  split; [reflexivity|]. split; [reflexivity|]. split; [reflexivity|].
  destruct (proj1 Record_subpath_normalized content (Some uuid4_example) "auto"
              "/a/b/" [] None false eq_refl eq_refl eq_refl) as (r & Hr & _).
  exists r. split; [exact Hr|].
  injection Hr as <-. reflexivity.
Defined.

(** The version check on the uuid: the nil UUID is refused whatever the
    other arguments, and a version 4 UUID is taken. *)
Example Record_init_checks_uuid_version :
  Record_init content (Some 0%N) "auto" "/a/b/" [] None false
  = Raise (ValidationError "Record")
  /\ UUID_version uuid4_example = Some 4%N.
Proof. split; reflexivity. Qed.

(** ** Running the dispatcher *)

Ltac unfold_monad :=
  unfold session_method, json_headers, headers, response_json, py_get,
    getitem_key, getitem_first in *;
  unfold bind, ret, raise, lift, self_attr, session_attr, send,
    set_auth_token in *.

Ltac unfold_operations :=
  unfold run_call, outcome_of, perform, disconnect, get_profile, create, read,
    update, delete, query, query_data_asset, read_json_payload,
    upload_resource_with_payload, progress_ticket, __request in *.

(** Reduce, feeding in what is known of the state. *)
Tactic Notation "use_state" constr(H1) constr(H2) constr(H3) constr(H4) :=
  repeat (progress (cbn beta iota; rewrite ?H1, ?H2, ?H3, ?H4; simpl)).

Lemma api_unset_token endpoint method json data net w :
  auth_token (self w) = Unset ->
  __api endpoint method json data net w = (Raise (AttributeError "auth_token"), w).
Proof. intros H. unfold __api. unfold_monad. by rewrite H. Qed.

Lemma api_falsy_token endpoint method json data net w token :
  auth_token (self w) = Assigned token -> truthy token = false ->
  __api endpoint method json data net w = (Raise unauthenticated, w).
Proof. intros H Hf. unfold __api. unfold_monad. by rewrite H, Hf. Qed.

(** In a ready client exactly one request goes out, and the world changes
    by that log entry only. *)
Lemma api_ready_world endpoint method json data net w token pool url :
  ready w token pool url ->
  snd (__api endpoint method json data net w)
  = logged w (dispatched url token endpoint method json data).
Proof.
  intros [Ht Htr Hp Hu]. unfold __api, json_headers, headers, dispatched.
  unfold_monad. use_state Ht Htr Hp Hu.
  destruct (json_truthy json); use_state Ht Htr Hp Hu;
    repeat case_match; simplify_eq; simpl; unfold logged; by rewrite ?Hp.
Qed.

(** [__api] writes no attribute and builds no pool, whatever happens. *)
Lemma api_frame endpoint method json data net w :
  let w' := snd (__api endpoint method json data net w) in
  self w' = self w /\ session w' = session w /\ pools w' = pools w.
Proof.
  unfold __api, json_headers, headers. unfold_monad.
  repeat (case_match; simplify_eq; simpl in *; try done).
Qed.

(** [__api] never returns: every path through it ends in an exception. *)
Lemma api_raises endpoint method json data net w :
  exists e, fst (__api endpoint method json data net w) = Raise e.
Proof.
  unfold __api, json_headers, headers. unfold_monad.
  repeat (case_match; simplify_eq; simpl in *; eauto).
Qed.

(** ** The guard on the token *)

Lemma run_call_unset_token c net w :
  auth_token (self w) = Unset ->
  run_call c net w = (Raise (AttributeError "auth_token"), w).
Proof.
  intros H. destruct c as [o|]; [destruct o|]; unfold_operations;
    unfold bind; by rewrite api_unset_token.
Qed.


Example get_profile_after_token_cleared :
  run_call (call_operation op_get_profile)
    (always {| resp_status := 200; resp_json := Some body_success_empty |})
    (client (Assigned VNone))
  = (Raise unauthenticated, client (Assigned VNone))
  /\ unauthenticated
     = DmartException 401
         {| Error.type := "login"; Error.code := 10;
            Error.message := "Not authenticated Dmart user";
            Error.info := None |}.
Proof. split; reflexivity. Qed.

(** C1. On an instance whose [auth_token] attribute was never assigned
    (nothing but [connect] assigns it, so: before any successful connect),
    every authenticated call raises [AttributeError] for [auth_token]
    instead of the 401 [DmartException]; no request is issued and the
    world is unchanged. *)
Theorem call_before_connect_raises_attribute_error :
  forall (c : call) net sess url u p log n,
    let w := {| session := sess;
                self := {| dmart_url := url; username := u; password := p;
                           auth_token := Unset |};
                sent := log; pools := n |} in
    run_call c net w = (Raise (AttributeError "auth_token"), w)
    /\ run_call c net w <> (Raise unauthenticated, w).
Proof.
  intros c net sess url u p log n w.
  rewrite (run_call_unset_token c net w eq_refl). split; [done|]. by intros [=].
Qed.

(** ** Frame *)

(** C9. No operation other than [connect] and [disconnect] changes the
    instance: its attributes, the stored token among them, are after the
    call what they were before it, whether the call returned or raised. *)
Theorem operation_preserves_token :
  forall (o : operation) net w,
    self (snd (perform o net w)) = self w
    /\ auth_token (self (snd (perform o net w))) = auth_token (self w).
Proof.
  intros o net w.
  assert (self (snd (perform o net w)) = self w) as H.
  { destruct o; unfold_operations; apply api_frame. }
  split; [exact H|]. by rewrite H.
Qed.

(** ** The success path *)

(** C2. [__api] never returns an envelope: every call ends in an
    exception.  On a 200 response it hands the response object, not the
    decoded body, to [DmartResponse.model_validate], which rejects it: a
    [query] answered 200 with {"status":"success","records":[]} raises
    [ValidationError], although validating the decoded body would give an
    envelope whose [records] is the empty list. *)
Theorem dispatcher_success_raises_validation_error :
  (forall endpoint method json data net w,
      exists e, fst (__api endpoint method json data net w) = Raise e)
  /\ (let r := {| resp_status := 200; resp_json := Some body_success_empty |} in
      fst (query "myspace" "/" "" [] no_kwargs (always r)
             (client (Assigned (VStr "tok"))))
      = Raise (ValidationError "DmartResponse")
      /\ exists envelope,
          DmartResponse.model_validate (Decoded body_success_empty) = Ok envelope
          /\ DmartResponse.status envelope = success
          /\ DmartResponse.records envelope = VList []).
Proof.
  split; [apply api_raises|].
  split; [reflexivity|]. eexists. split; [reflexivity|]. split; reflexivity.
Qed.

(** ** [disconnect] *)

Lemma disconnect_raises net w :
  exists e, disconnect net w = (Raise e, snd (__api "/user/logout" m_post None None net w)).
Proof.
  unfold disconnect, bind.
  destruct (api_raises "/user/logout" m_post None None net w) as [e He].
  destruct (__api "/user/logout" m_post None None net w) as [r w'].
  simpl in *. subst r. eauto.
Qed.

(** C4. [disconnect] never clears the token: the logout call always
    raises (see C2), so the assignment after it is never reached, the
    exception propagates and the instance is unchanged.  After a logout
    answered 200 the token is still stored, and a following [get_profile]
    is dispatched to the backend instead of failing with 401. *)
Theorem disconnect_never_clears_token :
  (forall net w,
      exists e, fst (disconnect net w) = Raise e
                /\ self (snd (disconnect net w)) = self w)
  /\ (let r := {| resp_status := 200;
                  resp_json := Some (VDict [("status", VStr "success")]) |} in
      let w := client (Assigned (VStr "tok")) in
      let w' := snd (disconnect (always r) w) in
      fst (disconnect (always r) w) = Raise (ValidationError "DmartResponse")
      /\ auth_token (self w') = Assigned (VStr "tok")
      /\ fst (get_profile (always r) w') <> Raise unauthenticated
      /\ length (sent (snd (get_profile (always r) w'))) = 2%nat).
Proof.
  split.
  - intros net w. destruct (disconnect_raises net w) as [e He].
    exists e. rewrite He. simpl. split; [done|]. apply api_frame.
  - repeat split; try reflexivity. by intros [=].
Qed.

(** ** The session pool *)

Lemma create_session_pool_unset net w :
  session w = Unset ->
  create_session_pool net w = (Raise (AttributeError "session"), w).
Proof. intros H. unfold create_session_pool. unfold_monad. by rewrite H. Qed.

Lemma create_session_pool_existing net w pool :
  session w = Assigned (Some pool) -> create_session_pool net w = (Ok tt, w).
Proof. intros H. unfold create_session_pool. unfold_monad. by rewrite H. Qed.

Lemma create_session_pool_first net w :
  session w = Assigned None ->
  create_session_pool net w
  = (Ok tt, {| session := Assigned (Some {| pool_id := pools w |});
               self := self w; sent := sent w; pools := S (pools w) |}).
Proof. intros H. unfold create_session_pool. unfold_monad. by rewrite H. Qed.

(** Once the class attribute exists, acquiring is idempotent: a pool is
    built iff the attribute holds [None], and later calls change nothing. *)
Lemma acquire_times_bound net w s n :
  session w = Assigned s ->
  let w' := acquire_times (S n) net w in
  exists pool, session w' = Assigned (Some pool)
               /\ (s = Some pool \/ s = None /\ pool = {| pool_id := pools w |})
               /\ pools w' = (pools w + match s with Some _ => 0 | None => 1 end)%nat
               /\ self w' = self w /\ sent w' = sent w.
Proof.
  intros Hs. simpl.
  assert (forall k v p, session v = Assigned (Some p) ->
                        acquire_times k net v = v) as Hfix.
  { induction k as [|k IH]; intros v p Hv; [done|].
    simpl. rewrite (create_session_pool_existing _ _ _ Hv). simpl. eauto. }
  destruct s as [pool|].
  - rewrite (create_session_pool_existing _ _ _ Hs). simpl.
    rewrite (Hfix n w pool Hs). exists pool. repeat split; eauto; lia.
  - rewrite (create_session_pool_first _ _ Hs). simpl.
    erewrite Hfix by reflexivity. simpl.
    eexists. repeat split; eauto; simpl; lia.
Qed.

(** C6. On the class as it is defined, [create_session_pool] creates
    nothing: reading [cls.session], which no statement ever declared,
    raises [AttributeError].  Any number of calls leaves the class without
    a pool and the count of pools built at zero, and [__init__], which
    awaits it, raises as well. *)
Theorem create_session_pool_raises_on_first_call :
  forall net,
    create_session_pool net initial_world
    = (Raise (AttributeError "session"), initial_world)
    /\ (forall n, acquire_times n net initial_world = initial_world)
    /\ (forall n, pools (acquire_times n net initial_world) = 0%nat)
    /\ fst (__init__ "https://dmart.example" "alice" "secret" net initial_world)
       = Raise (AttributeError "session").
Proof.
  intros net.
  assert (forall n, acquire_times n net initial_world = initial_world) as H.
  { induction n as [|n IH]; [done|]. simpl. exact IH. }
  repeat split; [exact H|]. intros n. by rewrite H.
Qed.

(** ** [connect] *)

Lemma connect_rejected net w u p url d :
  login_answered net w u p url d -> rejected d = true ->
  connect net w
  = (Raise (ConnectionError login_failure), logged w (login_request url u p)).
Proof.
  intros [Hu Hp Hurl [pool Hs] (r & Hr & Hd)] Hrej.
  unfold rejected in Hrej. unfold connect. unfold_monad.
  unfold login_request in Hr.
  use_state Hu Hp Hs Hurl. rewrite Hr. simpl. rewrite Hd. simpl.
  destruct (py_eq_str _ _); simpl in *.
  - unfold logged. by rewrite Hs.
  - rewrite Hrej. unfold logged. by rewrite Hs.
Qed.

Lemma connect_accepted net w u p url d first rest attrs token :
  login_answered net w u p url d -> rejected d = false ->
  dict_lookup "records" d = Some (VList (VDict first :: rest)) ->
  dict_lookup "attributes" first = Some (VDict attrs) ->
  dict_lookup "access_token" attrs = Some token ->
  connect net w = (Ok tt, logged_in w (login_request url u p) token).
Proof.
  intros [Hu Hp Hurl [pool Hs] (r & Hr & Hd)] Hrej Hrec Hattrs Htok.
  unfold rejected in Hrej. apply orb_false_iff in Hrej as [Hst Hrecs].
  unfold connect. unfold_monad. unfold login_request in Hr.
  use_state Hu Hp Hs Hurl. rewrite Hr. simpl. rewrite Hd. simpl.
  rewrite Hst. simpl. rewrite Hrecs. simpl.
  rewrite Hrec. simpl. rewrite Hattrs. simpl. rewrite Htok.
  unfold logged_in. simpl. by rewrite Hs.
Qed.

Lemma rejected_spec d :
  dict_lookup "status" d = Some (VStr "failed")
  \/ dict_lookup "status" d = None
  \/ dict_lookup "records" d = None
  \/ dict_lookup "records" d = Some (VList []) ->
  rejected d = true.
Proof.
  unfold rejected. intros [H|[H|[H|H]]]; rewrite H; simpl;
    by rewrite ?orb_true_r.
Qed.

Lemma client_login_answered status d :
  login_answered (always {| resp_status := status; resp_json := Some (VDict d) |})
    (client Unset) "alice" "secret" "https://dmart.example" d.
Proof. split; try reflexivity; eexists; try split; reflexivity. Defined.

(** C5. When the login answer has status "failed", or has no record list
    or an empty one, [connect] raises [ConnectionError] and the instance is
    what it was before the call: no token is stored.  When the status is
    another string and the first record carries an access token in its
    attributes, [connect] returns and that token is the stored one. *)
Theorem connect_stores_token_only_on_success :
  forall net w u p url d,
    login_answered net w u p url d ->
    let w' := snd (connect net w) in
    ((dict_lookup "status" d = Some (VStr "failed")
      \/ dict_lookup "records" d = None
      \/ dict_lookup "records" d = Some (VList [])) ->
     fst (connect net w) = Raise (ConnectionError login_failure)
     /\ self w' = self w
     /\ auth_token (self w') = auth_token (self w))
    /\ (forall st first rest attrs token,
          dict_lookup "status" d = Some (VStr st) -> st <> "failed" ->
          dict_lookup "records" d = Some (VList (VDict first :: rest)) ->
          dict_lookup "attributes" first = Some (VDict attrs) ->
          dict_lookup "access_token" attrs = Some token ->
          fst (connect net w) = Ok tt
          /\ auth_token (self w') = Assigned token).
Proof.
  intros net w u p url d Hlogin w'. subst w'. split.
  - intros Hfail.
    rewrite (connect_rejected net w u p url d Hlogin); [done|].
    apply rejected_spec. tauto.
  - intros st first rest attrs token Hst Hne Hrec Hattrs Htok.
    rewrite (connect_accepted net w u p url d first rest attrs token Hlogin);
      [done| |done..].
    unfold rejected. rewrite Hst, Hrec. simpl.
    by destruct (String.eqb_spec st "failed").
Qed.

Lemma connect_stores_token_only_on_success_witness :
  (let net := always {| resp_status := 401;
                        resp_json := Some (VDict body_login_failed) |} in
   fst (connect net (client Unset)) = Raise (ConnectionError login_failure)
   /\ auth_token (self (snd (connect net (client Unset)))) = Unset)
  /\ (let net := always {| resp_status := 200;
                           resp_json := Some (VDict body_login_success) |} in
      fst (connect net (client Unset)) = Ok tt
      /\ auth_token (self (snd (connect net (client Unset))))
         = Assigned (VStr "tok")).
Proof.
  split.
  - pose proof (connect_stores_token_only_on_success _ _ _ _ _ _
                  (client_login_answered 401 body_login_failed)) as [H _].
    destruct (H (or_introl eq_refl)) as (Hr & _ & Ht). split; [exact Hr|exact Ht].
  - pose proof (connect_stores_token_only_on_success _ _ _ _ _ _
                  (client_login_answered 200 body_login_success)) as [_ H].
    eapply (H "success"); [reflexivity|by intros [=]|reflexivity..].
Defined.

(** C10. A login answer without a "status" member is a failure: [connect]
    raises [ConnectionError] and leaves the instance as it was, whatever
    else the answer holds, a record with an access token included. *)
Theorem connect_missing_status_is_failure :
  forall net w u p url d,
    login_answered net w u p url d ->
    dict_lookup "status" d = None ->
    fst (connect net w) = Raise (ConnectionError login_failure)
    /\ self (snd (connect net w)) = self w.
Proof.
  intros net w u p url d Hlogin Hnone.
  rewrite (connect_rejected net w u p url d Hlogin); [done|].
  apply rejected_spec. tauto.
Qed.

Lemma connect_missing_status_is_failure_witness :
  let net := always {| resp_status := 200;
                       resp_json := Some (VDict body_login_no_status) |} in
  dict_lookup "status" body_login_no_status = None
  /\ truthy (default VNone (dict_lookup "records" body_login_no_status)) = true
  /\ fst (connect net (client Unset)) = Raise (ConnectionError login_failure)
  /\ self (snd (connect net (client Unset))) = self (client Unset).
Proof.
  split; [reflexivity|]. split; [reflexivity|].
  exact (connect_missing_status_is_failure _ _ _ _ _ _
           (client_login_answered 200 body_login_no_status) eq_refl).
Defined.

(** ** Error mapping *)

(** What [__api] does with the answer to the request it sent. *)
Lemma api_ready_result endpoint method json data net w token pool url :
  ready w token pool url ->
  fst (__api endpoint method json data net w)
  = match net (sent w) (dispatched url token endpoint method json data) with
    | NoResponse detail => Raise (ClientError detail)
    | Responded r =>
        match resp_json r with
        | None => Raise JSONDecodeError
        | Some body =>
            if resp_status r =? 200 then Raise (ValidationError "DmartResponse")
            else
              match body with
              | VDict d =>
                  match dict_lookup "error" d with
                  | Some e =>
                      match Error_model_validate e with
                      | Ok error => Raise (DmartException (resp_status r) error)
                      | Raise x => Raise x
                      end
                  | None => Raise (KeyError (VStr "error"))
                  end
              | _ => Raise TypeError
              end
        end
    end.
Proof.
  intros [Ht Htr Hp Hu]. unfold __api, dispatched.
  unfold_monad. use_state Ht Htr Hp Hu.
  destruct (json_truthy json); use_state Ht Htr Hp Hu;
    repeat (case_match; simplify_eq; simpl in *; try done).
Qed.


(** The error object is read as lax mode reads it: a code given as a
    boolean, or as a string the library reads as an integer, validates,
    and the exception carries the integer. *)
Lemma Error_model_validate_coerces ty code msg c :
  validate_int code = Some c ->
  Error_model_validate
    (VDict [("type", VStr ty); ("code", code); ("message", VStr msg)])
  = Ok {| Error.type := ty; Error.code := c; Error.message := msg;
          Error.info := None |}.
Proof. intros Hc. unfold Error_model_validate. simpl. by rewrite Hc. Qed.

Lemma dispatcher_coerces_code endpoint method json data net w token pool url
    status ty code msg c :
  ready w token pool url ->
  net (sent w) (dispatched url token endpoint method json data)
  = Responded {| resp_status := status;
                 resp_json :=
                   Some (VDict [("status", VStr "failed");
                                ("error", VDict [("type", VStr ty);
                                                 ("code", code);
                                                 ("message", VStr msg)])]) |} ->
  status <> 200 ->
  code = VBool true /\ c = 1
  \/ (exists n, code = VInt n /\ c = n)
  \/ (exists s, code = VStr s /\ str_as_int s = Some c) ->
  fst (__api endpoint method json data net w)
  = Raise (DmartException status
             {| Error.type := ty; Error.code := c; Error.message := msg;
                Error.info := None |}).
Proof.
  intros Hready Hr Hstatus Hcode.
  rewrite (api_ready_result _ _ _ _ _ _ _ _ _ Hready), Hr.
  apply Z.eqb_neq in Hstatus. cbn [resp_json resp_status]. rewrite Hstatus.
  assert (validate_int code = Some c) as Hc.
  { destruct Hcode as [[-> ->]|[(n & -> & ->)|(s & -> & Hs)]]; done. }
  change (dict_lookup "error" _) with
    (Some (VDict [("type", VStr ty); ("code", code); ("message", VStr msg)])).
  cbn iota. by rewrite (Error_model_validate_coerces ty code msg c Hc).
Qed.

Lemma client_ready token :
  truthy token = true ->
  ready (client (Assigned token)) token {| pool_id := 0 |} "https://dmart.example".
Proof. intros H. by split. Defined.

(** ** Header selection *)

Lemma dict_set_nonempty k v d : dict_set k v d <> [].
Proof. destruct d as [|[k' v'] d]; simpl; [done|]. by destruct (String.eqb k k'). Qed.

Lemma dict_update_nonempty extra d : d <> [] -> dict_update d extra <> [].
Proof.
  unfold dict_update. revert d.
  induction extra as [|[k v] extra IH]; intros d Hd; simpl; [done|].
  apply IH, dict_set_nonempty.
Qed.

(** Every authenticated call is one call of [__api], with either no JSON
    body or a dict that is not empty, and never both a JSON body and form
    data. *)
Lemma run_call_dispatch c net w :
  exists endpoint method json data,
    snd (run_call c net w) = snd (__api endpoint method json data net w)
    /\ json_truthy json = (if json is Some _ then true else false)
    /\ (is_Some data -> json = None).
Proof.
  destruct c as [o|].
  - destruct o; unfold_operations;
      try (eexists _, _, _, _; split; [reflexivity|];
           split; [reflexivity|]; by intros [? [=]]).
    + eexists _, _, _, _. split; [reflexivity|]. split; [|by intros [? [=]]].
      simpl. match goal with |- context [dict_update ?d ?e] =>
        pose proof (dict_update_nonempty e d ltac:(done)) as Hne;
        destruct (dict_update d e) end; done.
    + eexists _, _, _, _. split; [reflexivity|]. split; [|by intros [? [=]]].
      destruct cancellation_reasons as [[|a reasons]|]; reflexivity.
  - destruct (disconnect_raises net w) as [e He].
    exists "/user/logout", m_post, None, None. unfold run_call. rewrite He.
    split; [reflexivity|]. split; [reflexivity|]. by intros [? [=]].
Qed.

(** Outside such a client [__api] leaves the world alone: nothing goes out. *)
Lemma api_sends_only_when_ready endpoint method json data net w :
  snd (__api endpoint method json data net w) = w
  \/ exists token pool url, ready w token pool url.
Proof.
  destruct (auth_token (self w)) as [|token] eqn:Ht;
    [left; by rewrite api_unset_token|].
  destruct (truthy token) eqn:Htr;
    [|left; by rewrite (api_falsy_token _ _ _ _ _ _ _ Ht Htr)].
  destruct (session w) as [|[pool|]] eqn:Hp;
    [left; unfold __api; unfold_monad; by use_state Ht Htr Hp Hp| |
     left; unfold __api; unfold_monad; by use_state Ht Htr Hp Hp].
  destruct (dmart_url (self w)) as [|url] eqn:Hu;
    [left; unfold __api; unfold_monad; by use_state Ht Htr Hp Hu|].
  right. exists token, pool, url. by split.
Qed.

(** C8. Every authenticated call of a client that can dispatch sends one
    request, and no other client sends any.  A request that goes out
    carries the JSON Content-Type header and the bearer Authorization
    header when it has a JSON body, and the bearer Authorization header
    alone when it has none, form data or not. *)
Theorem header_selection :
  forall (c : call) net w,
    (forall token pool url,
        ready w token pool url ->
        exists req, sent (snd (run_call c net w)) = sent w ++ [req])
    /\ (forall req,
          sent (snd (run_call c net w)) = sent w ++ [req] ->
          exists token,
            auth_token (self w) = Assigned token
            /\ (is_Some (req_json req) ->
                req_headers req = json_and_authorization token)
            /\ (req_json req = None ->
                req_headers req = authorization_only token)
            /\ (is_Some (req_data req) -> req_json req = None)).
Proof.
  intros c net w.
  destruct (run_call_dispatch c net w)
    as (endpoint & method & json & data & -> & Htruthy & Hdata).
  split.
  - intros token pool url Hready.
    rewrite (api_ready_world _ _ _ _ _ _ _ _ _ Hready). by eexists.
  - intros req Hsent.
    destruct (api_sends_only_when_ready endpoint method json data net w)
      as [Hsame|(token & pool & url & Hready)].
    + rewrite Hsame in Hsent. apply (f_equal length) in Hsent.
      rewrite length_app in Hsent. simpl in Hsent. lia.
    + rewrite (api_ready_world _ _ _ _ _ _ _ _ _ Hready) in Hsent.
      simpl in Hsent. apply app_inv_head in Hsent. injection Hsent as <-.
      exists token. split; [apply Hready|]. simpl. rewrite Htruthy.
      split; [|split].
      * by intros [d ->].
      * by intros ->.
      * exact Hdata.
Qed.

(** [__api] itself tests the truth of the body, not its presence: handed
    an empty dict it would send it with the Authorization header alone.
    No operation passes one. *)
Example api_empty_json_body :
  let r := {| resp_status := 200; resp_json := Some body_success_empty |} in
  let w := client (Assigned (VStr "tok")) in
  sent (snd (__api "/managed/request" m_post (Some []) None (always r) w))
  = [{| req_method := "post";
        req_url := "https://dmart.example/managed/request";
        req_headers := authorization_only (VStr "tok");
        req_json := Some []; req_data := None |}].
Proof. reflexivity. Qed.

(** * Further properties of the client *)

(** ** The pool once the class attribute exists *)

(** X1. On a class whose [session] attribute is bound (to [None] or to a
    pool), [create_session_pool] returns, and calling it again changes
    nothing: whatever the number of calls the world is the one the first
    call left.  A pool is built exactly when the attribute held [None],
    and a pool already in place is kept. *)
Theorem create_session_pool_idempotent :
  forall net w s,
    session w = Assigned s ->
    let w1 := snd (create_session_pool net w) in
    fst (create_session_pool net w) = Ok tt
    /\ create_session_pool net w1 = (Ok tt, w1)
    /\ (forall n, acquire_times (S n) net w = w1)
    /\ pools w1 = (pools w + match s with Some _ => 0 | None => 1 end)%nat
    /\ (forall pool, s = Some pool -> w1 = w)
    /\ (s = None -> session w1 = Assigned (Some {| pool_id := pools w |})).
Proof.
  intros net w s Hs w1. subst w1.
  assert (forall k v p, session v = Assigned (Some p) ->
                        acquire_times k net v = v) as Hfix.
  { induction k as [|k IH]; intros v p Hv; [done|].
    simpl. rewrite (create_session_pool_existing _ _ _ Hv). simpl. eauto. }
  destruct s as [pool|].
  - rewrite (create_session_pool_existing _ _ _ Hs). cbn [fst snd].
    split; [done|]. split; [exact (create_session_pool_existing _ _ _ Hs)|].
    split; [|repeat split; try done; lia].
    intros n. cbn [acquire_times].
    rewrite (create_session_pool_existing _ _ _ Hs). cbn [snd]. eauto.
  - rewrite (create_session_pool_first _ _ Hs). cbn [fst snd].
    split; [done|]. split; [by apply create_session_pool_existing with (pool := {| pool_id := pools w |})|].
    split; [|repeat split; try done; simpl; lia].
    intros n. cbn [acquire_times].
    rewrite (create_session_pool_first _ _ Hs). cbn [snd]. by eapply Hfix.
Qed.

Lemma create_session_pool_idempotent_witness :
  let w := {| session := Assigned None; self := new_instance;
              sent := []; pools := 0 |} in
  session w = Assigned None
  /\ pools (acquire_times 5 (always {| resp_status := 200; resp_json := None |}) w)
     = 1%nat.
Proof.
  intros w. split; [reflexivity|].
  destruct (create_session_pool_idempotent
              (always {| resp_status := 200; resp_json := None |}) w None eq_refl)
    as (_ & _ & Hn & Hp & _).
  rewrite (Hn 4%nat). exact Hp.
Defined.


(** ** [__init__] *)

(** X3. On a class whose [session] attribute is bound, the body of
    [__init__] returns with the three connection attributes assigned, the
    token attribute as it was (unset on a new instance), a pool in place
    and nothing sent; running it again builds no further pool. *)
Theorem init_assigns_and_acquires :
  forall url u p net w s,
    session w = Assigned s ->
    let w1 := snd (__init__ url u p net w) in
    fst (__init__ url u p net w) = Ok tt
    /\ dmart_url (self w1) = Assigned url
    /\ username (self w1) = Assigned u
    /\ password (self w1) = Assigned p
    /\ auth_token (self w1) = auth_token (self w)
    /\ (exists pool, session w1 = Assigned (Some pool))
    /\ pools w1 = (pools w + match s with Some _ => 0 | None => 1 end)%nat
    /\ sent w1 = sent w
    /\ (forall url' u' p',
          pools (snd (__init__ url' u' p' net w1)) = pools w1
          /\ session (snd (__init__ url' u' p' net w1)) = session w1).
Proof.
  intros url u p net w s Hs w1. subst w1.
  unfold __init__, create_session_pool. unfold_monad. simpl. rewrite Hs.
  destruct s as [pool|]; simpl; repeat split; eauto; lia.
Qed.

Lemma init_assigns_and_acquires_witness :
  let net := always {| resp_status := 200; resp_json := None |} in
  let w := {| session := Assigned None; self := new_instance;
              sent := []; pools := 0 |} in
  let w1 := snd (__init__ "https://dmart.example" "alice" "secret" net w) in
  auth_token (self w1) = Unset /\ pools w1 = 1%nat
  /\ pools (snd (__init__ "https://other.example" "bob" "hunter2" net w1)) = 1%nat.
Proof.
  intros net w w1.
  destruct (init_assigns_and_acquires "https://dmart.example" "alice" "secret"
              net w None eq_refl) as (_ & _ & _ & _ & Ht & _ & Hp & _ & Hagain).
  split; [exact Ht|]. split; [exact Hp|].
  destruct (Hagain "https://other.example" "bob" "hunter2") as [Hp' _].
  subst w1. rewrite Hp'. exact Hp.
Defined.

(** ** What an authenticated call does to the world *)

(** X4. An authenticated call never rebinds the class attribute and never
    builds a pool, and it issues at most one request: the log afterwards
    is the log before, or the log before with one request added at the
    end. *)
Theorem call_sends_at_most_one_request :
  forall (c : call) net w,
    let w' := snd (run_call c net w) in
    session w' = session w
    /\ pools w' = pools w
    /\ (sent w' = sent w \/ exists req, sent w' = sent w ++ [req]).
Proof.
  intros c net w.
  destruct (run_call_dispatch c net w)
    as (endpoint & method & json & data & Hw & _).
  simpl. rewrite Hw.
  destruct (api_frame endpoint method json data net w) as (_ & Hs & Hp).
  split; [exact Hs|]. split; [exact Hp|].
  destruct (api_sends_only_when_ready endpoint method json data net w)
    as [->|(token & pool & url & Hready)]; [by left|].
  right. rewrite (api_ready_world _ _ _ _ _ _ _ _ _ Hready). by eexists.
Qed.

(** ** More on [connect] *)

(** X5. [connect] touches nothing but the token: the class attribute, the
    pool count and the three connection attributes are after the call what
    they were before, and when the call raises, whatever the exception,
    the token attribute too is what it was.  Only a call that returns
    binds a token. *)
Theorem connect_changes_only_token :
  forall net w,
    let w' := snd (connect net w) in
    session w' = session w
    /\ pools w' = pools w
    /\ dmart_url (self w') = dmart_url (self w)
    /\ username (self w') = username (self w)
    /\ password (self w') = password (self w)
    /\ match fst (connect net w) with
       | Raise _ => self w' = self w
       | Ok _ => exists token, auth_token (self w') = Assigned token
       end.
Proof.
  intros net w. unfold connect, set_auth_token. unfold_monad. cbn beta.
  repeat (case_match; simplify_eq; simpl in *; try done); eauto 10.
Qed.

(** X6. [connect] issues at most one request, and it is the login request:
    a POST to the base URL followed by /user/login, with the stored
    username and password as its JSON body, the JSON Content-Type header
    and no Authorization header, a token stored earlier or not. *)
Theorem connect_sends_only_login_request :
  forall net w,
    let w' := snd (connect net w) in
    sent w' = sent w
    \/ exists url u p,
        dmart_url (self w) = Assigned url
        /\ username (self w) = Assigned u
        /\ password (self w) = Assigned p
        /\ sent w' = sent w ++ [login_request url u p]
        /\ req_headers (login_request url u p) !! "Authorization" = None
        /\ req_headers (login_request url u p) !! "Content-Type"
           = Some (Literal "application/json").
Proof.
  intros net w. unfold connect, set_auth_token. unfold_monad. cbn beta.
  destruct (username (self w)) as [|u] eqn:Hu; [by left|].
  destruct (password (self w)) as [|p] eqn:Hp; [by left|]. cbn beta iota.
  destruct (session w) as [|[pool|]] eqn:Hs; [by left| |by left]. cbn beta iota.
  destruct (dmart_url (self w)) as [|url] eqn:Hurl; [by left|].
  right. exists url, u, p. repeat split; try done.
  unfold login_request.
  repeat (case_match; simplify_eq; simpl in *; try done).
Qed.

(** X7. [connect] never looks at the HTTP status of the login answer: two
    backends whose answers to the login request differ only in status lead
    to the same result and the same world.  A 500 answer with a success
    body logs the client in. *)
Theorem connect_ignores_status :
  forall net1 net2 w,
    (forall req, same_body (net1 (sent w) req) (net2 (sent w) req)) ->
    connect net1 w = connect net2 w.
Proof.
  intros net1 net2 w Hsame. unfold connect, set_auth_token. unfold_monad.
  cbn beta.
  destruct (username (self w)) as [|u]; [done|].
  destruct (password (self w)) as [|p]; [done|]. cbn beta iota.
  destruct (session w) as [|[pool|]]; [done| |done]. cbn beta iota.
  destruct (dmart_url (self w)) as [|url]; [done|]. cbn beta iota.
  match goal with
  | |- context [net1 (sent w) ?req] => specialize (Hsame req)
  end.
  unfold same_body in Hsame.
  destruct (net1 (sent w) _) as [d1|r1], (net2 (sent w) _) as [d2|r2];
    try done; [subst; reflexivity|].
  rewrite Hsame. destruct (resp_json r2) as [[| | | | |d]|]; try reflexivity.
  cbn beta iota.
  destruct (py_eq_str _ _); cbn beta iota; [reflexivity|].
  destruct (negb _); cbn beta iota; [reflexivity|].
  repeat (case_match; simplify_eq; cbn beta iota; try reflexivity).
Qed.

Lemma connect_ignores_status_witness :
  let ok := always {| resp_status := 200; resp_json := Some (VDict body_login_success) |} in
  let ko := always {| resp_status := 500; resp_json := Some (VDict body_login_success) |} in
  fst (connect ko (client Unset)) = Ok tt
  /\ auth_token (self (snd (connect ko (client Unset)))) = Assigned (VStr "tok").
Proof.
  intros ok ko.
  rewrite <- (connect_ignores_status ok ko (client Unset)); [|done].
  split; reflexivity.
Defined.




Ltac run_connect Hsent :=
  let Hu := fresh "Hu" in
  let Hp := fresh "Hp" in
  let Hurl := fresh "Hurl" in
  let Hs := fresh "Hs" in
  let Hr := fresh "Hr" in
  let pool := fresh "pool" in
  destruct Hsent as [Hu Hp Hurl [pool Hs] Hr];
  unfold connect; unfold_monad; unfold login_request in Hr;
  use_state Hu Hp Hs Hurl; rewrite Hr; simpl.

Lemma client_login_sent r :
  login_sent (always r) (client Unset) "alice" "secret" "https://dmart.example" r.
Proof. split; try reflexivity. by eexists. Defined.

(** X10. A login answer that is not shaped as expected makes [connect]
    raise the exception of the step that trips over it, none of them a
    [ConnectionError]: a body that does not decode raises the decoding
    error; a body that is not a JSON object raises [AttributeError] for
    [get]; an accepted answer whose first record has no "attributes"
    member, or whose attributes have no "access_token" member, raises
    [KeyError] for that member; a record list that is a non-empty string
    raises [TypeError]. *)
Theorem connect_malformed_answer :
  forall net w u p url r,
    login_sent net w u p url r ->
    let outcome := fst (connect net w) in
    (resp_json r = None -> outcome = Raise JSONDecodeError)
    /\ (forall v, resp_json r = Some v -> (forall d, v <> VDict d) ->
                  outcome = Raise (AttributeError "get"))
    /\ (forall d st,
          resp_json r = Some (VDict d) ->
          dict_lookup "status" d = Some (VStr st) -> st <> "failed" ->
          (forall first rest,
              dict_lookup "records" d = Some (VList (VDict first :: rest)) ->
              dict_lookup "attributes" first = None ->
              outcome = Raise (KeyError (VStr "attributes")))
          /\ (forall first rest attrs,
                dict_lookup "records" d = Some (VList (VDict first :: rest)) ->
                dict_lookup "attributes" first = Some (VDict attrs) ->
                dict_lookup "access_token" attrs = None ->
                outcome = Raise (KeyError (VStr "access_token")))
          /\ (forall s,
                dict_lookup "records" d = Some (VStr s) -> s <> "" ->
                outcome = Raise TypeError)).
Proof.
  intros net w u p url r Hsent outcome. subst outcome.
  split; [|split].
  - intros Hnone. run_connect Hsent. by rewrite Hnone.
  - intros v Hv Hnd. run_connect Hsent. rewrite Hv.
    destruct v; try done. by destruct (Hnd d).
  - intros d st Hd Hst Hne.
    assert (py_eq_str (VStr st) "failed" = false) as Hst'
      by (simpl; by destruct (String.eqb_spec st "failed")).
    split; [|split].
    + intros first rest Hrec Hattrs. run_connect Hsent.
      rewrite Hd. simpl. rewrite Hst. simpl in *. rewrite Hst'. simpl.
      rewrite Hrec. simpl. by rewrite Hattrs.
    + intros first rest attrs Hrec Hattrs Htok. run_connect Hsent.
      rewrite Hd. simpl. rewrite Hst. simpl in *. rewrite Hst'. simpl.
      rewrite Hrec. simpl. rewrite Hattrs. simpl. by rewrite Htok.
    + intros s Hrec Hs'. run_connect Hsent.
      rewrite Hd. simpl. rewrite Hst. simpl in *. rewrite Hst'. simpl.
      rewrite Hrec. simpl.
      destruct s as [|a s]; [done|]. reflexivity.
Qed.

Lemma connect_malformed_answer_witness :
  let r := {| resp_status := 200;
              resp_json := Some (VDict [("status", VStr "success");
                                        ("records", VList [VDict []])]) |} in
  fst (connect (always r) (client Unset)) = Raise (KeyError (VStr "attributes"))
  /\ fst (connect (always {| resp_status := 502; resp_json := None |}) (client Unset))
     = Raise JSONDecodeError.
Proof.
  intros r. split.
  - destruct (connect_malformed_answer _ _ _ _ _ _ (client_login_sent r))
      as (_ & _ & H).
    destruct (H _ "success" eq_refl eq_refl ltac:(by intros [=])) as (Hattr & _).
    by apply (Hattr [] []).
  - by apply (connect_malformed_answer _ _ _ _ _ _
                (client_login_sent {| resp_status := 502; resp_json := None |})).
Defined.

(** ** More on the error mapping *)

Lemma Error_model_validate_incomplete e :
  (forall d, e <> VDict d)
  \/ (exists d, e = VDict d
                /\ (dict_lookup "type" d = None \/ dict_lookup "code" d = None
                    \/ dict_lookup "message" d = None)) ->
  Error_model_validate e = Raise (ValidationError "Error").
Proof.
  intros [Hnd|(d & -> & Hmiss)].
  - destruct e; try done. by destruct (Hnd d).
  - unfold Error_model_validate.
    destruct Hmiss as [H|[H|H]]; rewrite H; repeat case_match; done.
Qed.

(** X11. A response whose status is not 200 ends in [DmartException] only
    when its body carries a complete error object.  In a client that can
    dispatch, a body that is not a JSON object raises [TypeError]; a JSON
    object without an "error" member raises [KeyError] for it; an "error"
    member that is not an object, or that lacks "type", "code" or
    "message", raises [ValidationError]. *)
Theorem dispatcher_malformed_error_body :
  forall endpoint method json data net w token pool url r,
    ready w token pool url ->
    net (sent w) (dispatched url token endpoint method json data) = Responded r ->
    resp_status r <> 200 ->
    let outcome := fst (__api endpoint method json data net w) in
    (forall v, resp_json r = Some v -> (forall d, v <> VDict d) ->
               outcome = Raise TypeError)
    /\ (forall d, resp_json r = Some (VDict d) -> dict_lookup "error" d = None ->
                  outcome = Raise (KeyError (VStr "error")))
    /\ (forall d e,
          resp_json r = Some (VDict d) -> dict_lookup "error" d = Some e ->
          (forall ed, e <> VDict ed)
          \/ (exists ed, e = VDict ed
                         /\ (dict_lookup "type" ed = None
                             \/ dict_lookup "code" ed = None
                             \/ dict_lookup "message" ed = None)) ->
          outcome = Raise (ValidationError "Error")).
Proof.
  intros endpoint method json data net w token pool url r Hready Hr Hstatus
    outcome. subst outcome.
  rewrite (api_ready_result _ _ _ _ _ _ _ _ _ Hready), Hr.
  apply Z.eqb_neq in Hstatus. split; [|split].
  - intros v -> Hnd. rewrite Hstatus. destruct v; try done. by destruct (Hnd d).
  - intros d -> He. by rewrite Hstatus, He.
  - intros d e -> He Hbad.
    by rewrite Hstatus, He, (Error_model_validate_incomplete e Hbad).
Qed.

(** ** Request bodies *)

Lemma dict_lookup_set_eq k v d : dict_lookup k (dict_set k v d) = Some v.
Proof.
  induction d as [|[k' v'] d IH]; simpl.
  - by rewrite String.eqb_refl.
  - destruct (String.eqb k k') eqn:E; simpl; rewrite ?String.eqb_refl, ?E; done.
Qed.

Lemma dict_lookup_set_ne k k' v d :
  k <> k' -> dict_lookup k' (dict_set k v d) = dict_lookup k' d.
Proof.
  intros Hne. induction d as [|[k1 v1] d IH]; simpl.
  - destruct (String.eqb_spec k' k); [by subst|done].
  - destruct (String.eqb_spec k k1) as [->|Hk]; simpl.
    + destruct (String.eqb_spec k' k1); [by subst|done].
    + destruct (String.eqb k' k1); [done|exact IH].
Qed.

Lemma dict_lookup_absent k (d : pydict) : k ∉ d.*1 -> dict_lookup k d = None.
Proof.
  induction d as [|[k' v'] d IH]; [done|].
  simpl. intros Hnot. apply not_elem_of_cons in Hnot as [Hne Hnot].
  destruct (String.eqb_spec k k'); [done|]. by apply IH.
Qed.

Lemma dict_lookup_update_none k extra d :
  dict_lookup k extra = None ->
  dict_lookup k (dict_update d extra) = dict_lookup k d.
Proof.
  unfold dict_update. revert d.
  induction extra as [|[k1 v1] extra IH]; intros d; simpl; [done|].
  destruct (String.eqb_spec k k1) as [->|Hne]; [done|].
  intros Hnone. rewrite (IH _ Hnone). by apply dict_lookup_set_ne.
Qed.

Lemma dict_lookup_update_some k v extra d :
  NoDup extra.*1 -> dict_lookup k extra = Some v ->
  dict_lookup k (dict_update d extra) = Some v.
Proof.
  revert d. induction extra as [|[k1 v1] extra IH]; intros d Hnd; [done|].
  simpl in *. apply NoDup_cons in Hnd as [Hnot Hnd].
  destruct (String.eqb_spec k k1) as [->|Hne].
  - intros [= ->].
    change (dict_lookup k1 (dict_update (dict_set k1 v d) extra) = Some v).
    rewrite (dict_lookup_update_none _ _ _ (dict_lookup_absent _ _ Hnot)).
    apply dict_lookup_set_eq.
  - intros Hsome.
    change (dict_lookup k (dict_update (dict_set k1 v1 d) extra) = Some v).
    by apply IH.
Qed.

Lemma free_of_parameters_lookup d k :
  free_of_parameters d = true -> is_query_parameter k = true ->
  dict_lookup k d = None.
Proof.
  intros Hfree Hk. induction d as [|[k' v] d IH]; [done|].
  cbn [free_of_parameters forallb fst] in Hfree.
  apply andb_prop in Hfree as [Hk' Hfree]. cbn [dict_lookup].
  destruct (String.eqb_spec k k') as [->|_]; [by rewrite Hk in Hk'|].
  by apply IH.
Qed.

(** X12. The body of a [query] is the six fixed members with the keyword
    arguments laid over them.  In a client that can dispatch, the request
    goes to /managed/query with a JSON body in which every keyword argument
    appears with its value, so that a keyword named "type" or
    "retrieve_json_payload" replaces the built-in "search" or [True]; a
    member no keyword names keeps its built-in value, and the four members
    named after parameters always hold the arguments, as no keyword can
    bear a parameter's name. *)
Theorem query_kwargs_override :
  forall space_name subpath search filter_schema_names (kwargs : query_kwargs)
         net w token pool url,
    ready w token pool url ->
    NoDup (kw_items kwargs).*1 ->
    exists req body,
      sent (snd (query space_name subpath search filter_schema_names kwargs net w))
      = sent w ++ [req]
      /\ req_url req = url +:+ "/managed/query"
      /\ req_method req = "post"
      /\ req_json req = Some body
      /\ (forall k v, dict_lookup k (kw_items kwargs) = Some v ->
                      dict_lookup k body = Some v)
      /\ (forall k v, dict_lookup k (kw_items kwargs) = Some v ->
                      is_query_parameter k = false)
      /\ (dict_lookup "type" (kw_items kwargs) = None ->
          dict_lookup "type" body = Some (VStr "search"))
      /\ (dict_lookup "retrieve_json_payload" (kw_items kwargs) = None ->
          dict_lookup "retrieve_json_payload" body = Some (VBool true))
      /\ dict_lookup "space_name" body = Some (VStr space_name)
      /\ dict_lookup "subpath" body = Some (VStr subpath)
      /\ dict_lookup "search" body = Some (VStr search)
      /\ dict_lookup "filter_schema_names" body
         = Some (VList (VStr <$> filter_schema_names)).
Proof.
  intros space_name subpath search names kwargs net w token pool url Hready Hnd.
  unfold query. rewrite (api_ready_world _ _ _ _ _ _ _ _ _ Hready).
  pose proof (free_of_parameters_lookup _ "space_name" (kw_free kwargs) eq_refl).
  pose proof (free_of_parameters_lookup _ "subpath" (kw_free kwargs) eq_refl).
  pose proof (free_of_parameters_lookup _ "search" (kw_free kwargs) eq_refl).
  pose proof (free_of_parameters_lookup _ "filter_schema_names" (kw_free kwargs)
                eq_refl).
  eexists _, _. split; [reflexivity|]. split; [reflexivity|].
  split; [reflexivity|]. split; [reflexivity|].
  split; [intros k v Hk; by apply dict_lookup_update_some|].
  split.
  { intros k v Hk. destruct (is_query_parameter k) eqn:E; [|done].
    by rewrite (free_of_parameters_lookup _ k (kw_free kwargs) E) in Hk. }
  repeat split; try (intros Hnone); by rewrite dict_lookup_update_none.
Qed.

(** X13. [progress_ticket] sends a body only for a reason that is not
    empty.  In a client that can dispatch it issues one PUT request; with
    no reason or with the empty string the request has no JSON body and no
    Content-Type header, and with any other reason the body is the single
    member "resolution" holding it, sent with the JSON Content-Type. *)
Theorem progress_ticket_body :
  forall space_name subpath shortname action reasons net w token pool url,
    ready w token pool url ->
    exists req,
      sent (snd (progress_ticket space_name subpath shortname action reasons net w))
      = sent w ++ [req]
      /\ req_method req = "put"
      /\ (reasons = None \/ reasons = Some "" ->
          req_json req = None /\ req_headers req !! "Content-Type" = None)
      /\ (forall s, reasons = Some s -> s <> "" ->
                    req_json req = Some [("resolution", VStr s)]
                    /\ req_headers req !! "Content-Type"
                       = Some (Literal "application/json")).
Proof.
  intros space_name subpath shortname action reasons net w token pool url Hready.
  unfold progress_ticket. rewrite (api_ready_world _ _ _ _ _ _ _ _ _ Hready).
  eexists. split; [reflexivity|]. split; [reflexivity|]. split.
  - intros [->| ->]; by split.
  - intros s -> Hs. destruct s as [|a s]; [done|]. split; [done|].
    simpl. by rewrite lookup_insert_eq.
Qed.

(** ** The stored subpath and the patterns *)

Lemma string_ind2 (P : string -> Prop) :
  P "" ->
  (forall c, P (String c "")) ->
  (forall c1 c2 s, P s -> P (String c2 s) -> P (String c1 (String c2 s))) ->
  forall s, P s.
Proof.
  intros H0 H1 H2 s.
  assert (P s /\ forall c, P (String c s)) as [H _]; [|exact H].
  induction s as [|a s [IH1 IH2]]; [by split|].
  split; [apply IH2|]. intros c. apply H2; [exact IH1|apply IH2].
Qed.

Lemma class_run_cons slash c1 rest :
  class_run slash (String c1 rest)
  = if ascii_word slash c1 then S <$> class_run slash rest
    else match rest with
         | String c2 rest' =>
             if arabic_pair c1 c2 then S <$> class_run slash rest' else None
         | EmptyString => None
         end.
Proof. reflexivity. Qed.

Lemma append_cons c s t : String c s +:+ t = String c (s +:+ t).
Proof. reflexivity. Qed.

Lemma arabic_pair_slash c : arabic_pair c "/" = false.
Proof.
  unfold arabic_pair.
  destruct (nat_of_ascii c =? 216)%nat, (nat_of_ascii c =? 217)%nat; reflexivity.
Qed.

Lemma class_run_slashes n : class_run true (run_of "/" n) = Some n.
Proof.
  induction n as [|n IH]; [done|].
  cbn [run_of]. rewrite class_run_cons, IH. reflexivity.
Qed.

Lemma class_run_slashes_app n x :
  class_run true (run_of "/" n +:+ x) = (fun j => (n + j)%nat) <$> class_run true x.
Proof.
  induction n as [|n IH].
  { change (run_of "/" 0 +:+ x) with x. by destruct (class_run true x). }
  cbn [run_of]. rewrite append_cons, class_run_cons, IH.
  change (ascii_word true "/") with true. cbn iota.
  by destruct (class_run true x).
Qed.

Lemma class_run_app_slashes t m k :
  class_run true (t +:+ run_of "/" m) = Some k ->
  exists k', class_run true t = Some k' /\ k = (k' + m)%nat.
Proof.
  revert k. induction t as [|c|c1 c2 t IH1 IH2] using string_ind2; intros k.
  - change ("" +:+ run_of "/" m) with (run_of "/" m).
    rewrite class_run_slashes. intros [= <-]. by exists 0%nat.
  - rewrite append_cons. change ("" +:+ run_of "/" m) with (run_of "/" m).
    rewrite !class_run_cons, class_run_slashes.
    destruct (ascii_word true c).
    + intros [= <-]. by exists 1%nat.
    + destruct m as [|m]; [done|]. cbn [run_of]. by rewrite arabic_pair_slash.
  - rewrite !append_cons, (class_run_cons true c1 (String c2 (t +:+ _))),
      (class_run_cons true c1 (String c2 t)).
    destruct (ascii_word true c1).
    + rewrite <- append_cons.
      destruct (class_run true (String c2 t +:+ run_of "/" m)) as [k0|] eqn:E;
        [|done].
      destruct (IH2 _ eq_refl) as (k' & -> & ->). intros [= <-]. by exists (S k').
    + destruct (arabic_pair c1 c2); [|done].
      destruct (class_run true (t +:+ run_of "/" m)) as [k0|] eqn:E; [|done].
      destruct (IH1 _ eq_refl) as (k' & -> & ->). intros [= <-]. by exists (S k').
Qed.

Lemma class_run_nonempty slash s : class_run slash s = Some 0%nat -> s = "".
Proof.
  destruct s as [|c1 rest]; [done|]. rewrite class_run_cons.
  destruct (ascii_word slash c1).
  - by destruct (class_run slash rest).
  - destruct rest as [|c2 rest']; [done|].
    destruct (arabic_pair c1 c2); [|done]. by destruct (class_run slash rest').
Qed.

Lemma run_of_app c n m : run_of c n +:+ run_of c m = run_of c (n + m).
Proof. induction n as [|n IH]; [done|]. simpl. rewrite <- IH. reflexivity. Qed.

Lemma strip_slashes n : strip "/" (run_of "/" n) = "".
Proof.
  unfold strip. assert (lstrip "/" (run_of "/" n) = "") as ->; [|done].
  induction n as [|n IH]; [done|]. exact IH.
Qed.

(** X14. Stripping can leave a subpath that the field pattern would not
    have accepted, but only an empty one: for a uuid that is absent or of
    version 4 and a shortname and a subpath that match their patterns,
    construction succeeds and the stored subpath is either empty or
    matches [SUBPATH]; and it is empty exactly when the given subpath is
    made of two or more '/'. *)
Theorem stored_subpath_matches_or_empty :
  forall rt uid sn sp attrs att rls,
    uuid_field uid = true -> SHORTNAME sn = true -> SUBPATH sp = true ->
    exists r,
      Record_init rt uid sn sp attrs att rls = Ok r
      /\ (subpath r = "" \/ SUBPATH (subpath r) = true)
      /\ (subpath r = "" <-> exists n, (2 <= n)%nat /\ sp = run_of "/" n)
      /\ SUBPATH "" = false.
Proof.
  intros rt uid sn sp attrs att rls Huid Hsn Hsp.
  destruct (Record_init_accepts rt uid sn sp attrs att rls Huid Hsn Hsp)
    as [r Hr].
  exists r. split; [exact Hr|].
  rewrite (Record_init_subpath _ _ _ _ _ _ _ _ Hr).
  split; [|split; [|reflexivity]].
  - unfold normalize_subpath.
    destruct (String.eqb_spec sp "/") as [->|Hne]; simpl; [by right|].
    destruct (strip_spec "/" sp) as (n & m & Hsp' & _).
    unfold SUBPATH, class_match in Hsp.
    destruct (class_run true sp) as [k|] eqn:Hk; [|done].
    rewrite Hsp', class_run_slashes_app in Hk.
    destruct (class_run true (strip "/" sp +:+ run_of "/" m)) as [k1|] eqn:Hk1;
      [|done].
    destruct (class_run_app_slashes _ _ _ Hk1) as (k' & Hk' & ->).
    injection Hk as <-.
    destruct k' as [|k']; [left; by apply (class_run_nonempty true)|].
    right. unfold SUBPATH, class_match. rewrite Hk'.
    apply andb_prop in Hsp as [_ Hhi]. apply Nat.leb_le in Hhi.
    apply andb_true_intro. split; [done|]. apply Nat.leb_le. lia.
  - unfold normalize_subpath.
    destruct (String.eqb_spec sp "/") as [->|Hne]; simpl.
    + split; [done|]. intros (n & Hn & Heq).
      destruct n as [|[|n]]; [lia|lia|done].
    + split.
      * intros Hempty. destruct (strip_spec "/" sp) as (n & m & Hsp' & _).
        rewrite Hempty in Hsp'.
        change ("" +:+ run_of "/" m) with (run_of "/" m) in Hsp'.
        rewrite run_of_app in Hsp'. exists (n + m)%nat. split; [|exact Hsp'].
        destruct (n + m)%nat as [|[|k]] eqn:E; [|by destruct Hne|lia].
        by rewrite Hsp' in Hsp.
      * intros (n & _ & ->). apply strip_slashes.
Qed.

Lemma stored_subpath_matches_or_empty_witness :
  SHORTNAME "p1" = true /\ SUBPATH "//" = true
  /\ exists r, Record_init content None "p1" "//" [] None false = Ok r
               /\ subpath r = "" /\ SUBPATH (subpath r) = false.
Proof.
  split; [reflexivity|]. split; [reflexivity|].
  destruct (stored_subpath_matches_or_empty content None "p1" "//" [] None false
              eq_refl eq_refl eq_refl) as (r & Hr & _ & [_ Hempty] & Hno).
  exists r. split; [exact Hr|].
  assert (subpath r = "") as E by (apply Hempty; exists 2%nat; by split).
  split; [exact E|]. rewrite E. exact Hno.
Defined.

(** X15. For a uuid that is absent or of version 4 and a shortname and a
    subpath that match their patterns, construction succeeds and stores
    the subpath exactly as given if and only if it is the root "/" or has
    no '/' at either end; in every other case the stored value differs
    from the argument. *)
Theorem subpath_stored_unchanged_iff :
  forall rt uid sn sp attrs att rls,
    uuid_field uid = true -> SHORTNAME sn = true -> SUBPATH sp = true ->
    exists r,
      Record_init rt uid sn sp attrs att rls = Ok r
      /\ (subpath r = sp
          <-> sp = "/" \/ (head_is "/" sp = false /\ last_is "/" sp = false)).
Proof.
  intros rt uid sn sp attrs att rls Huid Hsn Hsp.
  destruct (Record_init_accepts rt uid sn sp attrs att rls Huid Hsn Hsp)
    as [r Hr].
  exists r. split; [exact Hr|].
  rewrite (Record_init_subpath _ _ _ _ _ _ _ _ Hr). unfold normalize_subpath.
  destruct (String.eqb_spec sp "/") as [->|Hne]; simpl; [by split; [left|]|].
  destruct (strip_spec "/" sp) as (_ & _ & _ & Hh & Hl). split.
  - intros E. right. by rewrite E in Hh, Hl.
  - intros [?|[Hh' Hl']]; [done|].
    unfold strip. by rewrite (lstrip_fixed _ _ Hh'), (rstrip_fixed _ _ Hl').
Qed.

Lemma subpath_stored_unchanged_iff_witness :
  uuid_field (Some uuid4_example) = true
  /\ SHORTNAME "p1" = true /\ SUBPATH "a/b" = true
  /\ exists r, Record_init content (Some uuid4_example) "p1" "a/b" [] None false
               = Ok r
               /\ subpath r = "a/b".
Proof.
  split; [reflexivity|]. split; [reflexivity|]. split; [reflexivity|].
  destruct (subpath_stored_unchanged_iff content (Some uuid4_example) "p1" "a/b"
              [] None false eq_refl eq_refl eq_refl) as (r & Hr & _ & Hsame).
  exists r. split; [exact Hr|]. apply Hsame. right. by split.
Defined.

Lemma ascii_word_not_slash c : ascii_word false c = true -> Ascii.eqb c "/" = false.
Proof. destruct (Ascii.eqb_spec c "/") as [->|]; [by vm_compute|done]. Qed.

Lemma ascii_word_with_slash c : ascii_word false c = true -> ascii_word true c = true.
Proof.
  unfold ascii_word. cbn zeta. intros H.
  rewrite andb_false_l, orb_false_r in H. by rewrite H.
Qed.

Lemma arabic_pair_lead b c1 c2 : arabic_pair c1 c2 = true -> ascii_word b c1 = false.
Proof.
  unfold arabic_pair, ascii_word. cbn zeta.
  destruct (Nat.eqb_spec (nat_of_ascii c1) 216) as [->|_];
    [intros _; by destruct b|].
  destruct (Nat.eqb_spec (nat_of_ascii c1) 217) as [->|_];
    [intros _; by destruct b|done].
Qed.

Lemma arabic_pair_trail c1 c2 : arabic_pair c1 c2 = true -> Ascii.eqb c2 "/" = false.
Proof.
  destruct (Ascii.eqb_spec c2 "/") as [->|]; [by rewrite arabic_pair_slash|done].
Qed.

Lemma shortname_chars s k :
  class_run false s = Some k ->
  class_run true s = Some k /\ head_is "/" s = false /\ last_is "/" s = false.
Proof.
  revert k. induction s as [|c|c1 c2 s IH1 IH2] using string_ind2; intros k.
  - by intros [= <-].
  - rewrite !class_run_cons.
    destruct (ascii_word false c) eqn:Hc; [|done].
    rewrite (ascii_word_with_slash _ Hc). intros [= <-].
    simpl. by rewrite (ascii_word_not_slash _ Hc).
  - rewrite (class_run_cons false c1), (class_run_cons true c1).
    destruct (ascii_word false c1) eqn:Hc1.
    + rewrite (ascii_word_with_slash _ Hc1).
      destruct (class_run false (String c2 s)) as [k0|] eqn:E; [|done].
      destruct (IH2 _ eq_refl) as (-> & _ & Hl). intros [= <-].
      split; [done|]. split; [|exact Hl].
      simpl. by rewrite (ascii_word_not_slash _ Hc1).
    + destruct (arabic_pair c1 c2) eqn:Hp; [|done].
      rewrite (arabic_pair_lead true _ _ Hp).
      destruct (class_run false s) as [k0|] eqn:E; [|done].
      destruct (IH1 _ eq_refl) as (-> & _ & Hl). intros [= <-].
      split; [done|]. split.
      * simpl. destruct (Ascii.eqb_spec c1 "/") as [->|]; [|done].
        pose proof (arabic_pair_lead true _ _ Hp) as Hx. by vm_compute in Hx.
      * change (last_is "/" (String c2 s) = false).
        destruct s as [|a s]; [|exact Hl].
        simpl. exact (arabic_pair_trail _ _ Hp).
Qed.

(** X16. Every string that matches [SHORTNAME] matches [SUBPATH] too, has
    no '/' at either end, and so is stored unchanged when it is given as
    the subpath of a [Record] whose uuid is absent or of version 4 and
    whose shortname matches its pattern. *)
Theorem shortname_is_a_stable_subpath :
  forall rt uid sn sp attrs att rls,
    uuid_field uid = true -> SHORTNAME sn = true -> SHORTNAME sp = true ->
    SUBPATH sp = true
    /\ exists r, Record_init rt uid sn sp attrs att rls = Ok r /\ subpath r = sp.
Proof.
  intros rt uid sn sp attrs att rls Huid Hsn Hsp.
  unfold SHORTNAME, class_match in Hsp.
  destruct (class_run false sp) as [k|] eqn:Hk; [|done].
  destruct (shortname_chars _ _ Hk) as (Hk' & Hh & Hl).
  apply andb_prop in Hsp as [Hlo Hhi]. apply Nat.leb_le in Hhi.
  assert (SUBPATH sp = true) as Hsub.
  { unfold SUBPATH, class_match. rewrite Hk', Hlo. apply Nat.leb_le. lia. }
  split; [exact Hsub|].
  destruct (Record_init_accepts rt uid sn sp attrs att rls Huid Hsn Hsub)
    as [r Hr].
  exists r. split; [exact Hr|].
  rewrite (Record_init_subpath _ _ _ _ _ _ _ _ Hr). unfold normalize_subpath.
  destruct (negb (sp =? "/")%string); [|done].
  unfold strip. by rewrite (lstrip_fixed _ _ Hh), (rstrip_fixed _ _ Hl).
Qed.

Lemma shortname_is_a_stable_subpath_witness :
  SHORTNAME "auto" = true /\ SHORTNAME "my_folder1" = true
  /\ exists r, Record_init folder None "auto" "my_folder1" [] None false = Ok r
               /\ subpath r = "my_folder1".
Proof.
  split; [reflexivity|]. split; [reflexivity|].
  exact (proj2 (shortname_is_a_stable_subpath folder None "auto" "my_folder1"
                  [] None false eq_refl eq_refl eq_refl)).
Defined.

Lemma class_run_length slash s k :
  class_run slash s = Some k ->
  (k <= String.length s /\ String.length s <= 2 * k)%nat.
Proof.
  revert k. induction s as [|c|c1 c2 s IH1 IH2] using string_ind2; intros k.
  - intros [= <-]. simpl. lia.
  - rewrite !class_run_cons. destruct (ascii_word slash c); [|done].
    intros [= <-]. simpl. lia.
  - rewrite (class_run_cons slash c1).
    destruct (ascii_word slash c1).
    + destruct (class_run slash (String c2 s)) as [k0|] eqn:E; [|done].
      intros [= <-]. specialize (IH2 _ eq_refl). simpl in *. lia.
    + destruct (arabic_pair c1 c2); [|done].
      destruct (class_run slash s) as [k0|] eqn:E; [|done].
      intros [= <-]. specialize (IH1 _ eq_refl). simpl in *. lia.
Qed.

(** X17. The patterns bound the size of what a [Record] takes: an accepted
    shortname has between 1 and 128 bytes of UTF-8 and an accepted subpath
    between 1 and 256, so construction raises [ValidationError] for an
    empty shortname or subpath and for one that is longer than that. *)
Theorem Record_init_rejects_out_of_bounds :
  forall rt uid sn sp attrs att rls,
    (sn = "" \/ sp = ""
     \/ (128 < String.length sn)%nat \/ (256 < String.length sp)%nat) ->
    Record_init rt uid sn sp attrs att rls = Raise (ValidationError "Record").
Proof.
  intros rt uid sn sp attrs att rls Hbad. unfold Record_init.
  destruct (uuid_field uid); [|done]. simpl.
  destruct (SHORTNAME sn) eqn:Hsn; [|done]. simpl.
  destruct (SUBPATH sp) eqn:Hsp; [|done]. exfalso.
  unfold SHORTNAME, SUBPATH, class_match in *.
  destruct (class_run false sn) as [k1|] eqn:E1; [|done].
  destruct (class_run true sp) as [k2|] eqn:E2; [|done].
  apply class_run_length in E1, E2.
  apply andb_prop in Hsn as [Hlo1 Hhi1], Hsp as [Hlo2 Hhi2].
  apply Nat.leb_le in Hlo1, Hhi1, Hlo2, Hhi2.
  destruct Hbad as [->|[->|[H|H]]]; simpl in *; lia.
Qed.

Lemma Record_init_rejects_out_of_bounds_witness :
  Record_init content None "auto" "" [] None false = Raise (ValidationError "Record")
  /\ Record_init content None "" "/" [] None false = Raise (ValidationError "Record").
Proof.
  split.
  - apply Record_init_rejects_out_of_bounds. right. by left.
  - apply Record_init_rejects_out_of_bounds. by left.
Defined.

(** ** Enumerations on the wire *)

(** X18. No two members of [ResourceType], of [RequestType] or of
    [RequestMethod] share a value: the string a request carries determines
    the member. *)
Theorem enum_values_are_distinct :
  (forall a b, ResourceType_value a = ResourceType_value b -> a = b)
  /\ (forall a b, RequestType_value a = RequestType_value b -> a = b)
  /\ (forall a b, RequestMethod_value a = RequestMethod_value b -> a = b).
Proof.
  split; [|split]; intros a b; destruct a, b; simpl; intros H;
    first [reflexivity | discriminate H].
Qed.

Lemma enum_values_are_distinct_witness :
  ResourceType_value data_asset = "data_asset" /\ data_asset = data_asset.
Proof.
  split; [reflexivity|].
  exact (proj1 enum_values_are_distinct data_asset data_asset eq_refl).
Defined.

(** ** More on the dispatcher *)

(** X19. In a client that can dispatch, every 200 answer whose body
    decodes, whatever the body says, ends in the [ValidationError] of the
    envelope: the status alone selects the branch, and the object handed
    to validation is the response, never the body. *)
Theorem dispatcher_200_ignores_body :
  forall endpoint method json data net w token pool url r body,
    ready w token pool url ->
    net (sent w) (dispatched url token endpoint method json data) = Responded r ->
    resp_status r = 200 -> resp_json r = Some body ->
    fst (__api endpoint method json data net w)
    = Raise (ValidationError "DmartResponse").
Proof.
  intros endpoint method json data net w token pool url r body Hready Hr Hs Hb.
  by rewrite (api_ready_result _ _ _ _ _ _ _ _ _ Hready), Hr, Hb, Hs.
Qed.

(** X20. With a truthy token but no usable pool or no base URL, [__api]
    raises [AttributeError] before anything is sent: for [session] when
    the class attribute is unset, for [request] when it holds [None], and
    for [dmart_url] when the pool is there but the URL was never assigned.
    The world is unchanged. *)
Theorem dispatcher_missing_attribute :
  forall endpoint method json data net w token,
    auth_token (self w) = Assigned token -> truthy token = true ->
    (session w = Unset ->
     __api endpoint method json data net w = (Raise (AttributeError "session"), w))
    /\ (session w = Assigned None ->
        __api endpoint method json data net w
        = (Raise (AttributeError "request"), w))
    /\ (forall pool,
          session w = Assigned (Some pool) -> dmart_url (self w) = Unset ->
          __api endpoint method json data net w
          = (Raise (AttributeError "dmart_url"), w)).
Proof.
  intros endpoint method json data net w token Ht Htr.
  split; [|split].
  - intros Hs. unfold __api. unfold_monad. by use_state Ht Htr Hs Hs.
  - intros Hs. unfold __api. unfold_monad. by use_state Ht Htr Hs Hs.
  - intros pool Hs Hu. unfold __api. unfold_monad. by use_state Ht Htr Hs Hu.
Qed.

(** X21. [connect] needs the instance and the class set up, and says which
    attribute is missing, in the order it reads them: [username], then
    [password], then the class attribute [session] ([post] when it holds
    [None]), then [dmart_url].  Nothing is sent and the world is
    unchanged. *)
Theorem connect_missing_attribute :
  forall net w,
    (username (self w) = Unset ->
     connect net w = (Raise (AttributeError "username"), w))
    /\ (forall u,
          username (self w) = Assigned u -> password (self w) = Unset ->
          connect net w = (Raise (AttributeError "password"), w))
    /\ (forall u p,
          username (self w) = Assigned u -> password (self w) = Assigned p ->
          (session w = Unset ->
           connect net w = (Raise (AttributeError "session"), w))
          /\ (session w = Assigned None ->
              connect net w = (Raise (AttributeError "post"), w))
          /\ (forall pool,
                session w = Assigned (Some pool) -> dmart_url (self w) = Unset ->
                connect net w = (Raise (AttributeError "dmart_url"), w))).
Proof.
  intros net w. split; [|split].
  - intros Hu. unfold connect. unfold_monad. by use_state Hu Hu Hu Hu.
  - intros u Hu Hp. unfold connect. unfold_monad. by use_state Hu Hp Hp Hp.
  - intros u p Hu Hp. split; [|split].
    + intros Hs. unfold connect. unfold_monad. by use_state Hu Hp Hs Hs.
    + intros Hs. unfold connect. unfold_monad. by use_state Hu Hp Hs Hs.
    + intros pool Hs Hurl. unfold connect. unfold_monad.
      by use_state Hu Hp Hs Hurl.
Qed.

Lemma connect_missing_attribute_witness :
  let net := always {| resp_status := 200; resp_json := Some (VDict body_login_success) |} in
  connect net initial_world = (Raise (AttributeError "username"), initial_world).
Proof.
  intros net. exact (proj1 (connect_missing_attribute net initial_world) eq_refl).
Defined.

End Properties.

(** * The examples, run *)

#[local] Existing Instance reads_no_numeral.




Lemma header_selection_witness :
  let r := {| resp_status := 200; resp_json := Some body_success_empty |} in
  let w := client (Assigned (VStr "tok")) in
  (exists req,
      sent (snd (run_call (call_operation (op_delete "myspace" "posts" "p1" content))
                   (always r) w)) = [req]
      /\ is_Some (req_json req)
      /\ req_headers req !! "Content-Type" = Some (Literal "application/json")
      /\ req_headers req !! "Authorization" = Some (Bearer (VStr "tok")))
  /\ (exists req,
        sent (snd (run_call
                     (call_operation
                        (op_upload_resource_with_payload "myspace" [] "bytes"
                           "a.png" "image/png"))
                     (always r) w)) = [req]
        /\ is_Some (req_data req)
        /\ req_headers req !! "Content-Type" = None
        /\ req_headers req !! "Authorization" = Some (Bearer (VStr "tok"))).
Proof.
  intros r w. split.
  - destruct (header_selection
                (call_operation (op_delete "myspace" "posts" "p1" content))
                (always r) w) as [Hone Hsel].
    destruct (Hone _ _ _ (client_ready (VStr "tok") eq_refl)) as [req Hsent].
    destruct (Hsel req Hsent) as (token & [= <-] & Hjson & _).
    exists req. split; [exact Hsent|].
    injection Hsent as <-.
    split; [by eexists|]. rewrite Hjson by (by eexists). by split.
  - destruct (header_selection
                (call_operation
                   (op_upload_resource_with_payload "myspace" [] "bytes"
                      "a.png" "image/png"))
                (always r) w) as [Hone Hsel].
    destruct (Hone _ _ _ (client_ready (VStr "tok") eq_refl)) as [req Hsent].
    destruct (Hsel req Hsent) as (token & [= <-] & _ & Hnone & _).
    exists req. split; [exact Hsent|].
    injection Hsent as <-.
    split; [by eexists|]. rewrite Hnone by reflexivity. by split.
Defined.




Lemma dispatcher_malformed_error_body_witness :
  let r := {| resp_status := 404;
              resp_json := Some (VDict [("detail", VStr "Not Found")]) |} in
  fst (get_profile (always r) (client (Assigned (VStr "tok"))))
  = Raise (KeyError (VStr "error")).
Proof.
  intros r.
  destruct (dispatcher_malformed_error_body "/user/profile" m_get None None
              (always r) _ _ _ _ r (client_ready (VStr "tok") eq_refl) eq_refl
              ltac:(by intros [=])) as (_ & Hkey & _).
  by apply (Hkey [("detail", VStr "Not Found")]).
Defined.

Lemma query_kwargs_override_witness :
  let net := always {| resp_status := 200; resp_json := Some body_success_empty |} in
  NoDup (kw_items kwargs_type_limit).*1
  /\ exists req body,
      sent (snd (query "myspace" "posts" "" [] kwargs_type_limit net
                   (client (Assigned (VStr "tok")))))
      = [req]
      /\ req_json req = Some body
      /\ dict_lookup "type" body = Some (VStr "subpath")
      /\ dict_lookup "limit" body = Some (VInt 50)
      /\ dict_lookup "retrieve_json_payload" body = Some (VBool true)
      /\ dict_lookup "space_name" body = Some (VStr "myspace").
Proof.
  intros net.
  assert (NoDup (kw_items kwargs_type_limit).*1) as Hnd
    by (apply (bool_decide_unpack _); vm_compute; exact I).
  split; [exact Hnd|].
  destruct (query_kwargs_override "myspace" "posts" "" [] kwargs_type_limit net
              _ _ _ _ (client_ready (VStr "tok") eq_refl) Hnd)
    as (req & body & Hsent & _ & _ & Hbody & Hkw & _ & _ & Hdef & Hsp & _).
  exists req, body. split; [exact Hsent|]. split; [exact Hbody|].
  split; [by apply Hkw|]. split; [by apply Hkw|]. split; [by apply Hdef|].
  exact Hsp.
Defined.

Lemma progress_ticket_body_witness :
  let net := always {| resp_status := 200; resp_json := Some body_success_empty |} in
  exists req,
    sent (snd (progress_ticket "myspace" "tickets" "t1" "close" (Some "")
                 net (client (Assigned (VStr "tok"))))) = [req]
    /\ req_json req = None.
Proof.
  intros net.
  destruct (progress_ticket_body "myspace" "tickets" "t1" "close" (Some "")
              net _ _ _ _ (client_ready (VStr "tok") eq_refl))
    as (req & Hsent & _ & Hnone & _).
  exists req. split; [exact Hsent|]. by apply Hnone; right.
Defined.

Lemma dispatcher_200_ignores_body_witness :
  let r := {| resp_status := 200; resp_json := Some body_validation_failed |} in
  fst (get_profile (always r) (client (Assigned (VStr "tok"))))
  = Raise (ValidationError "DmartResponse").
Proof.
  intros r.
  exact (dispatcher_200_ignores_body "/user/profile" m_get None None (always r)
           _ _ _ _ r body_validation_failed
           (client_ready (VStr "tok") eq_refl) eq_refl eq_refl eq_refl).
Defined.

Lemma dispatcher_missing_attribute_witness :
  let w := {| session := Assigned None;
              self := {| dmart_url := Assigned "https://dmart.example";
                         username := Assigned "alice"; password := Assigned "secret";
                         auth_token := Assigned (VStr "tok") |};
              sent := []; pools := 0 |} in
  get_profile (always {| resp_status := 200; resp_json := None |}) w
  = (Raise (AttributeError "request"), w).
Proof.
  intros w.
  exact (proj1 (proj2 (dispatcher_missing_attribute "/user/profile" m_get None
                         None _ w (VStr "tok") eq_refl eq_refl)) eq_refl).
Defined.
